(** * fetch_papers.py: the arXiv feed pipeline, embedded and verified

    The program is one linear pipeline: build the query URL, issue one HTTP
    GET, parse the Atom feed, map every entry to a paper record, drop the
    error pseudo-entries, serialise, write two files.

    Conventions of the embedding:
    - a Python [str] is a [string]; its characters are the code points below
      256, on which [isspace] and [lower] are exactly Python's;
    - an [xml.etree.ElementTree.Element] is the record [Element] (tag,
      attribute dictionary, text, children in document order);
    - the paper dictionary built by [parse_entry] has a fixed set of keys and
      is the record [Paper]; its JSON form keeps the insertion order. *)

From Stdlib Require Import Ascii NArith ZArith.
From stdpp Require Import base option list strings gmap pretty.

Set Warnings "-register-all".

(** ** Python string primitives *)

Module Py.

(** The one-character strings that a Rocq literal cannot hold. *)
Definition DQUOTE : ascii := "034"%char.
Definition LF : ascii := "010"%char.

(** [str.isspace] on one character, which is also the class [\s] of [re]
    on [str] patterns: TAB, LF, VT, FF, CR, the separators FS GS RS US,
    SPACE, NEL and NO-BREAK SPACE. *)
Definition isspace (c : ascii) : bool :=
  let n := N_of_ascii c in
  ((9 <=? n) && (n <=? 13) || (28 <=? n) && (n <=? 32)
   || (n =? 133) || (n =? 160))%N.

(** [str.lower] on one character: A-Z, and the capital letters
    U+00C0..U+00DE without the multiplication sign U+00D7. *)
Definition lower_char (c : ascii) : ascii :=
  let n := N_of_ascii c in
  if ((65 <=? n) && (n <=? 90)
      || (192 <=? n) && (n <=? 222) && negb (n =? 215))%N
  then ascii_of_N (n + 32) else c.

Fixpoint lower (s : string) : string :=
  match s with
  | "" => ""
  | String c r => String (lower_char c) (lower r)
  end.

(** [s.startswith(prefix)]. *)
Fixpoint startswith (s prefix : string) {struct prefix} : bool :=
  match prefix, s with
  | "", _ => true
  | String p prefix', String c s' =>
      if ascii_dec c p then startswith s' prefix' else false
  | String _ _, "" => false
  end.

(** [re.sub(r"\s+", " ", s)]: the scan copies every character that is not
    white space and emits one space where a run of white space starts;
    [in_run] says that the previous character belonged to a run. *)
Fixpoint sub_ws_from (in_run : bool) (s : string) : string :=
  match s with
  | "" => ""
  | String c r =>
      if isspace c
      then (if in_run then sub_ws_from true r
            else String " " (sub_ws_from true r))
      else String c (sub_ws_from false r)
  end.

Definition sub_ws (s : string) : string := sub_ws_from false s.

(** [str.lstrip()], [str.rstrip()] and [str.strip()] without argument. *)
Fixpoint lstrip (s : string) : string :=
  match s with
  | "" => ""
  | String c r => if isspace c then lstrip r else s
  end.

Fixpoint rstrip (s : string) : string :=
  match s with
  | "" => ""
  | String c r =>
      match rstrip r with
      | "" => if isspace c then "" else String c ""
      | r' => String c r'
      end
  end.

Definition strip (s : string) : string := rstrip (lstrip s).

(** Truth value of an optional string: [None] and [""] are false. *)
Definition truthy (o : option string) : bool :=
  match o with
  | Some (String _ _) => true
  | _ => false
  end.

End Py.

(** ** ElementTree *)

Module ET.

Inductive Element : Type :=
  mkElement {
    tag : string;
    attrib : gmap string string;
    text : option string;
    children : list Element
  }.

(** [elem.findall(path)] for a path that is a single qualified tag: the
    direct children with that tag, in document order. *)
Definition findall (elem : Element) (path : string) : list Element :=
  List.filter (fun c => bool_decide (tag c = path)) (children elem).

Definition find (elem : Element) (path : string) : option Element :=
  head (findall elem path).

(** [elem.findtext(path, default)]: the text of the first match, with
    [""] for a match that has no text, and [default] without a match. *)
Definition findtext (elem : Element) (path : string)
    (default : option string) : option string :=
  match find elem path with
  | Some c => Some (from_option id "" (text c))
  | None => default
  end.

(** [elem.get(key)] is [None] for a missing attribute; [elem.get(key, d)]
    is [d] there. *)
Definition get (elem : Element) (key : string) : option string :=
  attrib elem !! key.

Definition get_default (elem : Element) (key default : string) : string :=
  from_option id default (get elem key).

End ET.

Import ET.

(** ** Configuration *)

(** [all:"phrase"], one term of the keyword disjunction. *)
Definition all_term (phrase : string) : string :=
  "all:" +:+ String Py.DQUOTE phrase +:+ String Py.DQUOTE "".

Definition SEARCH_QUERY : string :=
  String.concat " OR "
    (all_term <$>
      [ "maternal health"; "maternal mortality"; "maternal morbidity";
        "pregnancy outcome"; "prenatal care"; "antenatal care";
        "obstetric"; "preeclampsia"; "gestational diabetes";
        "postpartum"; "perinatal"; "neonatal mortality";
        "cesarean"; "preterm birth"; "fetal health";
        "endometriosis"; "postpartum depression" ]).

Definition MAX_RESULTS : nat := 30.
Definition SORT_BY : string := "submittedDate".
Definition SORT_ORDER : string := "descending".

Definition ARXIV_API_URL : string := "http://export.arxiv.org/api/query".
Definition ATOM_NS : string := "{http://www.w3.org/2005/Atom}".

(** ** The parser *)

(** The argument is [None] when [findtext] found no element. *)
Definition clean_text (text : option string) : string :=
  match text with
  | None => ""
  | Some text => Py.strip (Py.sub_ws text)
  end.

Record Paper : Type :=
  mkPaper {
    title : string;
    authors : list string;
    abstract : string;
    published : string;
    abstract_url : string;
    pdf_url : string;
    categories : list string
  }.

(** The loop over the link elements: the first one whose [title] attribute
    is ["pdf"] sets the result and leaves the loop. *)
Fixpoint pdf_loop (links : list Element) (pdf_url : string) : string :=
  match links with
  | [] => pdf_url
  | link :: rest =>
      if bool_decide (get link "title" = Some "pdf")
      then get_default link "href" ""
      else pdf_loop rest pdf_url
  end.

Definition parse_entry (entry : Element) : Paper :=
  let title := clean_text (findtext entry (ATOM_NS +:+ "title") None) in
  let authors :=
    List.map (fun author => clean_text (findtext author (ATOM_NS +:+ "name") None))
             (findall entry (ATOM_NS +:+ "author")) in
  let abstract := clean_text (findtext entry (ATOM_NS +:+ "summary") None) in
  let published :=
    from_option id "" (findtext entry (ATOM_NS +:+ "published") (Some "")) in
  let abstract_url := clean_text (findtext entry (ATOM_NS +:+ "id") None) in
  let pdf_url := pdf_loop (findall entry (ATOM_NS +:+ "link")) "" in
  let categories :=
    List.map (fun cat => get_default cat "term" "")
             (List.filter (fun cat => Py.truthy (get cat "term"))
                          (findall entry (ATOM_NS +:+ "category"))) in
  {| title := title; authors := authors; abstract := abstract;
     published := published; abstract_url := abstract_url;
     pdf_url := pdf_url; categories := categories |}.

(** ** JSON text *)

Module Json.

(** The values that the program serialises: strings, lists and
    dictionaries; a dictionary keeps the insertion order of its keys. *)
Inductive value : Type :=
  | Str (s : string)
  | Arr (items : list value)
  | Obj (members : list (string * value)).

Definition hex_digit (n : N) : ascii :=
  if (n <? 10)%N then ascii_of_N (48 + n) else ascii_of_N (87 + n).

(** The replacement of one character by [json.encoder.encode_basestring]:
    backslash, double quote, the five short escapes, and [\u00xx] for the
    other characters below U+0020. *)
Definition escape (c : ascii) : string :=
  let n := N_of_ascii c in
  if (n =? 92)%N then "\\"
  else if (n =? 34)%N then String "\" (String Py.DQUOTE "")
  else if (n =? 8)%N then "\b"
  else if (n =? 12)%N then "\f"
  else if (n =? 10)%N then "\n"
  else if (n =? 13)%N then "\r"
  else if (n =? 9)%N then "\t"
  else if (n <? 32)%N
       then "\u00" +:+ String (hex_digit (n / 16)) (String (hex_digit (n mod 16)) "")
  else String c "".

Fixpoint escape_all (s : string) : string :=
  match s with
  | "" => ""
  | String c r => escape c +:+ escape_all r
  end.

Definition encode_basestring (s : string) : string :=
  String Py.DQUOTE (escape_all s) +:+ String Py.DQUOTE "".

(** A line feed followed by [level] copies of the two-space indent. *)
Fixpoint spaces (level : nat) : string :=
  match level with
  | O => ""
  | S n => "  " +:+ spaces n
  end.

Definition newline_indent (level : nat) : string :=
  String Py.LF (spaces level).

(** The encoder of [json.dumps(o, indent=2, ensure_ascii=False)] at a
    nesting depth: item separator [","], key separator [": "], an empty
    list is [[]] and an empty dictionary [{}]. *)
Fixpoint iterencode (level : nat) (o : value) : string :=
  match o with
  | Str s => encode_basestring s
  | Arr [] => "[]"
  | Arr items =>
      let nl := newline_indent (S level) in
      "[" +:+ nl
      +:+ String.concat ("," +:+ nl) (List.map (iterencode (S level)) items)
      +:+ newline_indent level +:+ "]"
  | Obj [] => "{}"
  | Obj members =>
      let nl := newline_indent (S level) in
      "{" +:+ nl
      +:+ String.concat ("," +:+ nl)
            (List.map (fun kv => let '(k, v) := kv in
                         encode_basestring k +:+ ": " +:+ iterencode (S level) v)
                      members)
      +:+ newline_indent level +:+ "}"
  end.

Definition dumps (o : value) : string := iterencode 0 o.

End Json.

(** ** The process: console, files, exits *)

Inductive stream : Type := stdout | stderr.

(** What a run changes: the lines printed so far, oldest first, and the
    content of the files by path. *)
Record State : Type :=
  mkState {
    console : list (stream * string);
    files : gmap string string
  }.

(** How a computation ends: it returns, [sys.exit(code)] raised
    [SystemExit], or another exception is on its way up. *)
Inductive result (A : Type) : Type :=
  | Return (a : A)
  | SysExit (code : Z)
  | Raise (exc : string).

Arguments Return {A} a.
Arguments SysExit {A} code.
Arguments Raise {A} exc.

Definition M (A : Type) : Type := State -> result A * State.

#[global] Instance M_ret : MRet M := fun A a s => (Return a, s).

#[global] Instance M_bind : MBind M := fun A B k m s =>
  match m s with
  | (Return a, s') => k a s'
  | (SysExit code, s') => (SysExit code, s')
  | (Raise exc, s') => (Raise exc, s')
  end.

Definition print_to (out : stream) (line : string) : M unit := fun s =>
  (Return tt, {| console := console s ++ [(out, line)]; files := files s |}).

Definition sys_exit {A : Type} (code : Z) : M A := fun s => (SysExit code, s).

Definition raise {A : Type} (exc : string) : M A := fun s => (Raise exc, s).

(** The status with which the interpreter leaves: 0 after a normal end, the
    argument of [sys.exit], 1 after an exception nobody caught. *)
Definition exit_code {A : Type} (r : result A) : Z :=
  match r with
  | Return _ => 0
  | SysExit code => code
  | Raise _ => 1
  end.

(** What the outside answers to the one request: an exception raised by
    [urlopen] or by [resp.read()], with its message, or a response. *)
Inductive http_result : Type :=
  | UrlRaise (exc : string)
  | Response (status : Z) (data : string).

(** The surroundings of one run. *)
Record World : Type :=
  mkWorld {
    (** [os.path.dirname(os.path.abspath(__file__))] *)
    script_dir : string;
    (** the outcome of the GET for a URL *)
    urlopen : string -> http_result;
    (** [datetime.now(timezone.utc).strftime("%Y-%m-%d %H:%M:%S UTC")] *)
    utc_now : string;
    (** whether the whole [with open(path, "w") as f: f.write(...)] goes
        through: the file is opened, written and closed without an error *)
    writable : string -> bool;
    (** where it does not: [None] when [open] itself raises, and the file is
        not touched; [Some rest] when [open] has emptied the file and the
        write or the close raises, [rest] being what the file is left with *)
    failed_write : string -> option string
  }.

(** [with open(path, "w", encoding="utf-8") as f: f.write(content)]. *)
Definition write_file (w : World) (path content : string) : M unit := fun s =>
  if writable w path
  then (Return tt, {| console := console s; files := <[path := content]> (files s) |})
  else match failed_write w path with
       | None => (Raise "OSError", s)
       | Some rest =>
           (Raise "OSError",
            {| console := console s; files := <[path := rest]> (files s) |})
       end.

(** [os.path.join(a, b)] on POSIX. *)
Fixpoint ends_with_slash (a : string) : bool :=
  match a with
  | "" => false
  | String c "" => bool_decide (c = "/"%char)
  | String _ r => ends_with_slash r
  end.

Definition path_join (a b : string) : string :=
  if Py.startswith b "/" then b
  else if bool_decide (a = "") || ends_with_slash a then a +:+ b
  else a +:+ "/" +:+ b.

Definition OUTPUT_DIR (w : World) : string := script_dir w.
Definition OUTPUT_JSON (w : World) : string := path_join (OUTPUT_DIR w) "papers.json".
Definition OUTPUT_JS (w : World) : string := path_join (OUTPUT_DIR w) "papers.js".

(** ** The query *)

Definition upper_hex_digit (n : N) : ascii :=
  if (n <? 10)%N then ascii_of_N (48 + n) else ascii_of_N (55 + n).

Definition percent (n : N) : string :=
  String "%" (String (upper_hex_digit (n / 16)) (String (upper_hex_digit (n mod 16)) "")).

(** [urllib.request.quote(s, safe="")]: letters, digits and [_.-~] stay,
    every other byte of the UTF-8 form becomes [%XX]. *)
Definition quote_char (c : ascii) : string :=
  let n := N_of_ascii c in
  if ((65 <=? n) && (n <=? 90) || (97 <=? n) && (n <=? 122)
      || (48 <=? n) && (n <=? 57)
      || (n =? 95) || (n =? 46) || (n =? 45) || (n =? 126))%N
  then String c ""
  else if (n <? 128)%N then percent n
  else percent (192 + n / 64) +:+ percent (128 + n mod 64).

Fixpoint quote (s : string) : string :=
  match s with
  | "" => ""
  | String c r => quote_char c +:+ quote r
  end.

Definition build_query_url : string :=
  let params := quote SEARCH_QUERY in
  ARXIV_API_URL +:+ "?"
  +:+ "search_query=" +:+ params
  +:+ "&sortBy=" +:+ SORT_BY
  +:+ "&sortOrder=" +:+ SORT_ORDER
  +:+ "&start=0"
  +:+ "&max_results=" +:+ pretty MAX_RESULTS.

(** ** The pipeline *)

(** The dictionary that [parse_entry] returns, as [json.dumps] sees it. *)
Definition paper_dict (p : Paper) : Json.value :=
  Json.Obj
    [ ("title", Json.Str (title p));
      ("authors", Json.Arr (Json.Str <$> authors p));
      ("abstract", Json.Str (abstract p));
      ("published", Json.Str (published p));
      ("abstract_url", Json.Str (abstract_url p));
      ("pdf_url", Json.Str (pdf_url p));
      ("categories", Json.Arr (Json.Str <$> categories p)) ].

(** The loop over the entries; [papers] is the list built so far. *)
Fixpoint entries_loop (entries : list Element) (papers : list Paper)
    : M (list Paper) :=
  match entries with
  | [] => mret papers
  | entry :: rest =>
      let paper := parse_entry entry in
      if Py.startswith (Py.lower (title paper)) "error"
      then print_to stderr ("API error entry: " +:+ title paper) ;;
           entries_loop rest papers
      else entries_loop rest (papers ++ [paper])
  end.

Section Pipeline.

(** [ET.fromstring]: the root element of a well-formed document, [None]
    where the parser raises [ParseError]. *)
Variable fromstring : string -> option Element.

Definition fetch_papers (w : World) : M (list Paper) :=
  let url := build_query_url in
  print_to stdout ("Fetching: " +:+ url) ;;
  data ← match urlopen w url with
         | Response status data =>
             if bool_decide (status ≠ 200%Z)
             then print_to stderr ("Error: HTTP " +:+ pretty status) ;;
                  sys_exit 1
             else mret data
         | UrlRaise exc =>
             print_to stderr ("Error fetching arXiv API: " +:+ exc) ;;
             sys_exit 1
         end;
  root ← match fromstring data with
         | Some root => mret root
         | None => raise "ParseError"
         end;
  let entries := findall root (ATOM_NS +:+ "entry") in
  match entries with
  | [] =>
      print_to stdout "Warning: No entries returned by arXiv API." ;;
      mret []
  | _ =>
      papers ← entries_loop entries [];
      print_to stdout ("Fetched " +:+ pretty (length papers) +:+ " papers.") ;;
      mret papers
  end.

Definition main (w : World) : M unit :=
  papers ← fetch_papers w;
  let output :=
    Json.Obj [ ("last_updated", Json.Str (utc_now w));
               ("query", Json.Str SEARCH_QUERY);
               ("papers", Json.Arr (paper_dict <$> papers)) ] in
  let json_str := Json.dumps output in
  write_file w (OUTPUT_JSON w) json_str ;;
  write_file w (OUTPUT_JS w)
    ("const PAPERS_DATA = " +:+ json_str +:+ ";" +:+ String Py.LF "") ;;
  print_to stdout ("Wrote " +:+ pretty (length papers) +:+ " papers to "
                   +:+ OUTPUT_JSON w +:+ " and " +:+ OUTPUT_JS w).

End Pipeline.

(** ** Vocabulary of the specification

    The definitions below do not come from the program: they say, in the
    words of the specification, what the program is compared with. *)

(** A string begins, or ends, with a white-space character. *)
Definition starts_ws (s : string) : bool :=
  match s with
  | "" => false
  | String c _ => Py.isspace c
  end.

Fixpoint ends_ws (s : string) : bool :=
  match s with
  | "" => false
  | String c "" => Py.isspace c
  | String _ r => ends_ws r
  end.

(** Every white-space character is a space and the character after it, if
    any, is not white space. *)
Fixpoint single_spaced (s : string) : bool :=
  match s with
  | "" => true
  | String c r =>
      (if Py.isspace c
       then bool_decide (c = " "%char) && negb (starts_ws r)
       else true)
      && single_spaced r
  end.

(** Interior white space collapsed to single spaces, none at either end. *)
Definition normalized (s : string) : Prop :=
  starts_ws s = false ∧ ends_ws s = false ∧ single_spaced s = true.

(** The words of a string: its maximal runs of characters that are not
    white space, in order (Python's [s.split()]). *)
Definition starts_word (s : string) : bool :=
  match s with
  | "" => false
  | String c _ => negb (Py.isspace c)
  end.

Fixpoint words (s : string) : list string :=
  match s with
  | "" => []
  | String c r =>
      if Py.isspace c then words r
      else if starts_word r
           then match words r with
                | w :: ws => String c w :: ws
                | [] => [String c ""]
                end
           else String c "" :: words r
  end.

(** [s] begins with [prefix] when letter case is ignored. *)
Definition ci_startswith (s prefix : string) : Prop :=
  ∃ h t, s = h +:+ t ∧ Py.lower h = Py.lower prefix.

(** The first link element whose [title] attribute is ["pdf"]. *)
Definition first_titled_pdf (links : list Element) : option Element :=
  List.find (fun link => bool_decide (get link "title" = Some "pdf")) links.

(** The [term] attribute when it is present and not empty. *)
Definition nonempty_term (cat : Element) : option string :=
  match get cat "term" with
  | Some (String c r) => Some (String c r)
  | _ => None
  end.

(** What one author element contributes to the list of authors. *)
Definition author_name (author : Element) : string :=
  match find author (ATOM_NS +:+ "name") with
  | Some name => clean_text (text name)
  | None => ""
  end.

(** [s] without a leading [prefix], or without a trailing [suffix]; [None]
    when [s] does not have it. *)
Fixpoint strip_prefix (prefix s : string) : option string :=
  match prefix, s with
  | "", _ => Some s
  | String p prefix', String c s' =>
      if ascii_dec c p then strip_prefix prefix' s' else None
  | String _ _, "" => None
  end.

Fixpoint strip_suffix (suffix s : string) : option string :=
  if bool_decide (s = suffix) then Some ""
  else match s with
       | "" => None
       | String c r => String c <$> strip_suffix suffix r
       end.

(** The text between the assignment prefix and the closing [";"] and line
    feed of the script file, when the text has that shape. *)
Definition embedded_payload (script : string) : option string :=
  strip_prefix "const PAPERS_DATA = " script
    ≫= strip_suffix (";" +:+ String Py.LF "").

(** The white-space-collapsed, trimmed version of a string: its words
    joined by single spaces. *)
Definition collapse_trim (s : string) : string := String.concat " " (words s).

(** A record field that holds the cleaned text of an element: [o] is the
    text that [findtext] found, [None] without an element. *)
Definition cleaned_from (o : option string) (field : string) : Prop :=
  field = clean_text o
  ∧ field = collapse_trim (from_option id "" o)
  ∧ normalized field.

(** The test of the filter on the record of an entry. *)
Definition error_entry (entry : Element) : bool :=
  Py.startswith (Py.lower (title (parse_entry entry))) "error".

(** The diagnostics for the error pseudo-entries among [entries]. *)
Definition error_lines (entries : list Element) : list (stream * string) :=
  (fun entry => (stderr, "API error entry: " +:+ title (parse_entry entry)))
    <$> List.filter error_entry entries.

(** What [fetch_papers] prints after the line with the URL. *)
Definition feed_lines (entries : list Element) : list (stream * string) :=
  match entries with
  | [] => [(stdout, "Warning: No entries returned by arXiv API.")]
  | _ =>
      error_lines entries
      ++ [(stdout,
           "Fetched "
           +:+ pretty (length (List.filter (fun e => negb (error_entry e)) entries))
           +:+ " papers.")]
  end.

(** The Feed Result of a run: time stamp, query, papers. *)
Definition feed_result (now : string) (papers : list Paper) : Json.value :=
  Json.Obj [ ("last_updated", Json.Str now);
             ("query", Json.Str SEARCH_QUERY);
             ("papers", Json.Arr (paper_dict <$> papers)) ].

(** The text of the script file around a JSON text. *)
Definition script_text (json_str : string) : string :=
  "const PAPERS_DATA = " +:+ json_str +:+ ";" +:+ String Py.LF "".

(** The JSON text of a result without papers, written out: three members,
    the last one an empty array. *)
Definition quoted (s : string) : string :=
  String Py.DQUOTE s +:+ String Py.DQUOTE "".

Definition empty_feed_json (now : string) : string :=
  "{" +:+ String Py.LF "  "
  +:+ quoted "last_updated" +:+ ": " +:+ Json.encode_basestring now +:+ ","
  +:+ String Py.LF "  "
  +:+ quoted "query" +:+ ": " +:+ Json.encode_basestring SEARCH_QUERY +:+ ","
  +:+ String Py.LF "  "
  +:+ quoted "papers" +:+ ": []"
  +:+ String Py.LF "}".

(** *** Further vocabulary *)

(** Every character of the string is white space. *)
Fixpoint all_ws (s : string) : bool :=
  match s with
  | "" => true
  | String c r => Py.isspace c && all_ws r
  end.

(** The characters of a string that are not white space, in order. *)
Fixpoint non_ws (s : string) : string :=
  match s with
  | "" => ""
  | String c r => if Py.isspace c then non_ws r else String c (non_ws r)
  end.

(** No character of the string is white space. *)
Fixpoint no_ws (s : string) : bool :=
  match s with
  | "" => true
  | String c r => negb (Py.isspace c) && no_ws r
  end.

(** The tags that [parse_entry] asks for. *)
Definition entry_tags : list string :=
  (fun name => ATOM_NS +:+ name)
    <$> ["title"; "author"; "summary"; "published"; "id"; "link"; "category"].

(** The record of an entry that has none of them. *)
Definition empty_paper : Paper :=
  {| title := ""; authors := []; abstract := ""; published := "";
     abstract_url := ""; pdf_url := ""; categories := [] |}.

(** The same element with other children. *)
Definition with_children (elem : Element) (cs : list Element) : Element :=
  mkElement (tag elem) (attrib elem) (text elem) cs.

(** The lines of a console that went to standard error. *)
Definition stderr_lines (lines : list (stream * string)) : list string :=
  omap (fun l => match l.1 with stderr => Some l.2 | stdout => None end) lines.

(** What a run of [fetch_papers] comes to, read off the world alone: how it
    ends and the lines it prints. *)
Definition fetch_outcome (fromstring : string → option Element) (w : World)
    : result (list Paper) * list (stream * string) :=
  let fetching := (stdout, "Fetching: " +:+ build_query_url) in
  match urlopen w build_query_url with
  | UrlRaise exc =>
      (SysExit 1, [fetching; (stderr, "Error fetching arXiv API: " +:+ exc)])
  | Response status data =>
      if bool_decide (status = 200%Z)
      then match fromstring data with
           | Some root =>
               let entries := findall root (ATOM_NS +:+ "entry") in
               (Return (parse_entry <$>
                          List.filter (fun e => negb (error_entry e)) entries),
                fetching :: feed_lines entries)
           | None => (Raise "ParseError", [fetching])
           end
      else (SysExit 1, [fetching; (stderr, "Error: HTTP " +:+ pretty status)])
  end.

(** What a run of [main] makes of the files, read off the world alone. *)
Definition main_files (fromstring : string → option Element) (w : World)
    (fs : gmap string string) : gmap string string :=
  match (fetch_outcome fromstring w).1 with
  | Return papers =>
      let json_str := Json.dumps (feed_result (utc_now w) papers) in
      if writable w (OUTPUT_JSON w)
      then if writable w (OUTPUT_JS w)
           then <[OUTPUT_JS w := script_text json_str]>
                  (<[OUTPUT_JSON w := json_str]> fs)
           else match failed_write w (OUTPUT_JS w) with
                | None => <[OUTPUT_JSON w := json_str]> fs
                | Some rest =>
                    <[OUTPUT_JS w := rest]> (<[OUTPUT_JSON w := json_str]> fs)
                end
      else match failed_write w (OUTPUT_JSON w) with
           | None => fs
           | Some rest => <[OUTPUT_JSON w := rest]> fs
           end
  | _ => fs
  end.

(** How a run of [main] ends, read off the world alone. *)
Definition main_result (fromstring : string → option Element) (w : World)
    : result unit :=
  match (fetch_outcome fromstring w).1 with
  | Return _ =>
      if writable w (OUTPUT_JSON w) && writable w (OUTPUT_JS w)
      then Return tt else Raise "OSError"
  | SysExit code => SysExit code
  | Raise exc => Raise exc
  end.

(** ** Sample data *)

Definition atom (name : string) : string := ATOM_NS +:+ name.

Definition leaf (name text : string) : Element :=
  mkElement (atom name) ∅ (Some text) [].

Definition link_alternate : Element :=
  mkElement (atom "link")
    {[ "rel" := "alternate"; "href" := "http://arxiv.org/abs/2401.00001" ]} None [].

Definition link_without_href : Element :=
  mkElement (atom "link") {[ "title" := "pdf" ]} None [].

Definition link_with_href : Element :=
  mkElement (atom "link")
    {[ "title" := "pdf"; "href" := "http://arxiv.org/pdf/2401.00001" ]} None [].

Definition linked_entry : Element :=
  mkElement (atom "entry") ∅ None
    [ leaf "title" "Preterm birth"; link_alternate; link_with_href;
      link_without_href ].

Definition sample_entry : Element :=
  mkElement (atom "entry") ∅ None
    [ leaf "title" ("  A   study" +:+ String Py.LF (String "009" " of  X "));
      mkElement (atom "author") ∅ None [leaf "name" " Ann  B "];
      mkElement (atom "author") ∅ None [];
      leaf "published" " 2024-01-01T00:00:00Z ";
      link_alternate;
      link_without_href;
      link_with_href;
      mkElement (atom "category") {[ "term" := "cs.LG" ]} None [];
      mkElement (atom "category") {[ "term" := "" ]} None [];
      mkElement (atom "category") ∅ None [];
      mkElement (atom "category") {[ "term" := "q-bio.QM" ]} None [] ].

Definition titled_entry (t : string) : Element :=
  mkElement (atom "entry") ∅ None [leaf "title" t].

Definition sample_feed : Element :=
  mkElement (atom "feed") ∅ None
    [ leaf "title" "ArXiv Query";
      titled_entry "Maternal  outcomes";
      titled_entry "ERROR: malformed query";
      sample_entry ].

Definition plain_feed : Element :=
  mkElement (atom "feed") ∅ None
    [ titled_entry "Terror management in  obstetrics";
      leaf "title" "ArXiv Query";
      sample_entry;
      titled_entry "errata" ].

Definition empty_feed : Element :=
  mkElement (atom "feed") ∅ None [leaf "title" "ArXiv Query"].

Definition sample_state : State :=
  mkState [] {[ "/srv/site/papers.js" := "const PAPERS_DATA = {};" ]}.

(** A world in which every request gets the same answer and every file can
    be written, and a parser that sees the same document in every body. *)
Definition sample_world (answer : http_result) : World :=
  mkWorld "/srv/site" (fun _ => answer) "2026-11-04 07:43:00 UTC" (fun _ => true)
          (fun _ => None).

Definition sample_body : string := "<feed xmlns='http://www.w3.org/2005/Atom'/>".

Definition parser_of (root : Element) : string → option Element :=
  fun _ => Some root.

(** An entry with nothing that [parse_entry] asks for. *)
Definition bare_entry : Element :=
  mkElement (atom "entry") {[ "title" := "pdf" ]} (Some "stray text")
    [ leaf "updated" "2024-01-02T00:00:00Z";
      mkElement "title" ∅ (Some "no namespace") [] ].

(** A feed whose entries are all error pseudo-entries. *)
Definition error_feed : Element :=
  mkElement (atom "feed") ∅ None
    [ titled_entry "Error"; titled_entry "  error: bad id " ].

Definition untitled_feed : Element :=
  mkElement (atom "feed") ∅ None [bare_entry; titled_entry "Perinatal care"].

Definition ok_world : World := sample_world (Response 200 sample_body).

(** An error pseudo-entry whose title text is indented and wrapped. *)
Definition wrapped_error_entry : Element :=
  titled_entry (String Py.LF "    " +:+ "Error: incorrect id format"
                +:+ String Py.LF "  ").

(** A world in which only [path] can be written. *)
Definition world_writing (only : string → bool) : World :=
  mkWorld "/srv/site" (fun _ => Response 200 sample_body)
          "2026-11-04 07:43:00 UTC" only (fun _ => None).

(** A world in which only [path] can be written and a failed write has
    opened the file and leaves it empty. *)
Definition world_emptying (only : string → bool) : World :=
  mkWorld "/srv/site" (fun _ => Response 200 sample_body)
          "2026-11-04 07:43:00 UTC" only (fun _ => Some "").

(** ** White space: [clean_text] *)

Section CleanText.

Implicit Types (s r : string) (c : ascii) (b : bool).

Lemma isspace_space : Py.isspace " " = true.
Proof. reflexivity. Qed.

Lemma starts_ws_lstrip s : starts_ws (Py.lstrip s) = false.
Proof.
  induction s as [|c r IH]; simpl; [done|].
  destruct (Py.isspace c) eqn:Hc; simpl; [done|by rewrite Hc].
Qed.

(** [rstrip] keeps the first character of whatever it leaves. *)
Lemma rstrip_head s c r : Py.rstrip s = String c r → ∃ r', s = String c r'.
Proof.
  destruct s as [|d s']; simpl; [done|].
  destruct (Py.rstrip s'); [destruct (Py.isspace d)|]; naive_solver.
Qed.

Lemma starts_ws_rstrip s : starts_ws s = false → starts_ws (Py.rstrip s) = false.
Proof.
  intros Hs. destruct (Py.rstrip s) as [|c r] eqn:E; [done|].
  apply rstrip_head in E as [r' ->]. done.
Qed.

Lemma ends_ws_rstrip s : ends_ws (Py.rstrip s) = false.
Proof.
  induction s as [|c r IH]; simpl; [done|].
  destruct (Py.rstrip r) as [|d r'] eqn:E.
  - destruct (Py.isspace c) eqn:Hc; simpl; [done|by rewrite Hc].
  - exact IH.
Qed.

Lemma starts_ws_sub_ws_run s : starts_ws (Py.sub_ws_from true s) = false.
Proof.
  induction s as [|c r IH]; simpl; [done|].
  destruct (Py.isspace c) eqn:Hc; simpl; [done|by rewrite Hc].
Qed.

Lemma single_spaced_sub_ws b s : single_spaced (Py.sub_ws_from b s) = true.
Proof.
  revert b; induction s as [|c r IH]; intros b; simpl; [done|].
  destruct (Py.isspace c) eqn:Hc.
  - destruct b; [apply IH|]. simpl.
    rewrite starts_ws_sub_ws_run, IH. done.
  - simpl. rewrite Hc, IH. done.
Qed.

Lemma single_spaced_tail c r : single_spaced (String c r) = true → single_spaced r = true.
Proof. simpl. intros [_ ?]%andb_prop. done. Qed.

Lemma single_spaced_lstrip s : single_spaced s = true → single_spaced (Py.lstrip s) = true.
Proof.
  induction s as [|c r IH]; [done|]. intros Hs. simpl.
  destruct (Py.isspace c); [|done]. eauto using single_spaced_tail.
Qed.

Lemma single_spaced_rstrip s : single_spaced s = true → single_spaced (Py.rstrip s) = true.
Proof.
  induction s as [|c r IH]; [done|]. intros Hs.
  pose proof (single_spaced_tail _ _ Hs) as Hr. specialize (IH Hr).
  simpl in *. destruct (Py.rstrip r) as [|d r'] eqn:E.
  - destruct (Py.isspace c) eqn:Hc; simpl; [done|by rewrite Hc].
  - apply rstrip_head in E as [r'' ->].
    change (single_spaced (String c (String d r')) = true).
    simpl in *. apply andb_prop in Hs as [Hs1 _].
    rewrite Hs1. exact IH.
Qed.

(** The result of [clean_text] has its white space collapsed and trimmed. *)
Lemma clean_text_normalized (text : option string) : normalized (clean_text text).
Proof.
  destruct text as [t|]; [|done]. unfold clean_text, Py.strip, Py.sub_ws.
  split_and!.
  - apply starts_ws_rstrip, starts_ws_lstrip.
  - apply ends_ws_rstrip.
  - apply single_spaced_rstrip, single_spaced_lstrip, single_spaced_sub_ws.
Qed.

(** *** [clean_text] joins the words with single spaces *)

Lemma words_head s w ws : words s = w :: ws → starts_word w = true.
Proof.
  revert w ws; induction s as [|c r IH]; intros w ws; simpl; [done|].
  destruct (Py.isspace c) eqn:Hc; [by apply IH|].
  destruct (starts_word r); [destruct (words r)|];
    intros [= <- _]; simpl; by rewrite Hc.
Qed.

Lemma starts_word_words s : starts_word s = true → words s ≠ [].
Proof.
  destruct s as [|c r]; simpl; [done|].
  intros ->%negb_true_iff.
  destruct (starts_word r); [destruct (words r)|]; done.
Qed.

Lemma starts_word_not_ws s : starts_word s = true → starts_ws s = false.
Proof. destruct s; simpl; [done|]. by intros ->%negb_true_iff. Qed.

Lemma concat_cons_word c w ws :
  String.concat " " (String c w :: ws) = String c (String.concat " " (w :: ws)).
Proof. destruct ws; reflexivity. Qed.

Lemma concat_words_head s w ws :
  words s = w :: ws →
  ∃ c r, String.concat " " (words s) = String c r ∧ Py.isspace c = false.
Proof.
  intros E. pose proof (words_head _ _ _ E) as Hw. rewrite E.
  destruct w as [|c w]; [done|]. simpl in Hw. apply negb_true_iff in Hw.
  rewrite concat_cons_word. eauto.
Qed.

Lemma lstrip_id s : starts_ws s = false → Py.lstrip s = s.
Proof. destruct s; simpl; [done|]. by intros ->. Qed.

Lemma rstrip_cons c s :
  Py.rstrip (String c s) =
    match Py.rstrip s with
    | "" => if Py.isspace c then "" else String c ""
    | r' => String c r'
    end.
Proof. reflexivity. Qed.

Lemma lstrip_rstrip s : Py.lstrip (Py.rstrip s) = Py.rstrip (Py.lstrip s).
Proof.
  induction s as [|c r IH]; [done|].
  rewrite rstrip_cons. simpl Py.lstrip at 2.
  destruct (Py.isspace c) eqn:Hc.
  - rewrite <- IH. destruct (Py.rstrip r); simpl; [done|by rewrite Hc].
  - rewrite rstrip_cons. destruct (Py.rstrip r); simpl; by rewrite Hc.
Qed.

(** What [rstrip] leaves of the substitution, inside a run of white space
    and outside of one. *)
Lemma rstrip_sub_ws s :
  Py.rstrip (Py.sub_ws_from true s) = String.concat " " (words s)
  ∧ Py.rstrip (Py.sub_ws_from false s) =
      (if starts_ws s
       then match words s with
            | [] => ""
            | _ => String " " (String.concat " " (words s))
            end
       else String.concat " " (words s)).
Proof.
  induction s as [|c r [IHrun IHout]]; [done|].
  cbn [Py.sub_ws_from words starts_ws].
  destruct (Py.isspace c) eqn:Hc.
  - split; [exact IHrun|].
    rewrite rstrip_cons, IHrun, isspace_space.
    destruct (words r) as [|w ws] eqn:E; [done|].
    destruct (concat_words_head _ _ _ E) as (d & t & Hd & _).
    rewrite E in Hd. by rewrite Hd.
  - assert (Py.rstrip (String c (Py.sub_ws_from false r))
            = String.concat " "
                (if starts_word r
                 then match words r with
                      | w :: ws => String c w :: ws
                      | [] => [String c ""]
                      end
                 else String c "" :: words r)) as Hgoal.
    { rewrite rstrip_cons, IHout, Hc.
      destruct r as [|d r']; [done|].
      cbn [starts_ws starts_word].
      destruct (Py.isspace d) eqn:Hd; cbn [negb].
      - destruct (words (String d r')) as [|w ws] eqn:E; [done|]. done.
      - assert (starts_word (String d r') = true) as Hsw
          by (simpl; by rewrite Hd).
        destruct (words (String d r')) as [|w ws] eqn:E;
          [by apply starts_word_words in Hsw|].
        destruct (concat_words_head _ _ _ E) as (d' & t & Hd' & _).
        rewrite E in Hd'. rewrite Hd', <- Hd'. symmetry. apply concat_cons_word. }
    split; exact Hgoal.
Qed.

(** [clean_text] is Python's [" ".join(text.split())]. *)
Lemma clean_text_words (t : string) :
  clean_text (Some t) = String.concat " " (words t).
Proof.
  unfold clean_text, Py.strip, Py.sub_ws.
  rewrite <- lstrip_rstrip. destruct (rstrip_sub_ws t) as [_ ->].
  assert (∀ u, starts_ws (String.concat " " (words u)) = false) as Hnows.
  { intros u. destruct (words u) as [|w ws] eqn:E; [done|].
    destruct (concat_words_head _ _ _ E) as (d & r & Hd & Hsp).
    rewrite E in Hd. rewrite Hd. exact Hsp. }
  destruct (starts_ws t).
  - destruct (words t) as [|w ws] eqn:E; [done|].
    change (Py.lstrip (String " " ?x)) with (Py.lstrip x).
    rewrite <- E. apply lstrip_id, Hnows.
  - apply lstrip_id, Hnows.
Qed.

(** *** A string that is already clean is left as it is *)

Lemma sub_ws_single_spaced s :
  single_spaced s = true →
  Py.sub_ws_from false s = s
  ∧ (starts_ws s = false → Py.sub_ws_from true s = s).
Proof.
  induction s as [|c r IH]; [done|]. intros Hs.
  specialize (IH (single_spaced_tail _ _ Hs)) as [IHout IHrun].
  simpl in *. destruct (Py.isspace c) eqn:Hc.
  - apply andb_prop in Hs as [[Hsp Hr]%andb_prop _].
    apply bool_decide_eq_true in Hsp as ->. apply negb_true_iff in Hr.
    split; [|done]. by rewrite IHrun.
  - by rewrite IHout.
Qed.

Lemma rstrip_id s : ends_ws s = false → Py.rstrip s = s.
Proof.
  induction s as [|c r IH]; [done|]. intros Hs. rewrite rstrip_cons.
  destruct r as [|d r'].
  - simpl in *. by rewrite Hs.
  - rewrite IH; [done|]. exact Hs.
Qed.

Lemma clean_text_fixed s : normalized s → clean_text (Some s) = s.
Proof.
  intros (Hl & Hr & Hs). unfold clean_text, Py.strip, Py.sub_ws.
  destruct (sub_ws_single_spaced s Hs) as [-> _].
  by rewrite lstrip_id, rstrip_id.
Qed.

Lemma clean_text_idempotent (text : option string) :
  clean_text (Some (clean_text text)) = clean_text text.
Proof. apply clean_text_fixed, clean_text_normalized. Qed.

End CleanText.

(** ** One entry: [parse_entry] *)

Section ParseEntry.

Implicit Types (entry link cat author : Element) (links : list Element).

Lemma cleaned_from_clean_text (o : option string) : cleaned_from o (clean_text o).
Proof.
  split_and!; [done| |apply clean_text_normalized].
  destruct o as [t|]; [apply clean_text_words|done].
Qed.

(** C2: the title, every author name and the abstract of the record are
    [clean_text] of the text of the corresponding element, which is that
    text with every run of white space collapsed to one space and no white
    space at either end. *)
Theorem parse_entry_text_fields_clean entry :
  cleaned_from (findtext entry (ATOM_NS +:+ "title") None)
               (title (parse_entry entry))
  ∧ Forall2 (fun author name =>
               cleaned_from (findtext author (ATOM_NS +:+ "name") None) name)
            (findall entry (ATOM_NS +:+ "author"))
            (authors (parse_entry entry))
  ∧ cleaned_from (findtext entry (ATOM_NS +:+ "summary") None)
                 (abstract (parse_entry entry)).
Proof.
  split_and!; try apply cleaned_from_clean_text.
  simpl. induction (findall entry (ATOM_NS +:+ "author")) as [|a l IH];
    constructor; [apply cleaned_from_clean_text|exact IH].
Qed.

Lemma pdf_loop_first links :
  pdf_loop links "" =
    match first_titled_pdf links with
    | Some link => from_option id "" (get link "href")
    | None => ""
    end.
Proof.
  induction links as [|l links IH]; simpl; [done|].
  unfold first_titled_pdf in *. simpl.
  destruct (bool_decide (get l "title" = Some "pdf")); [done|exact IH].
Qed.

(** [first_titled_pdf] picks the earliest link with the title. *)
Lemma first_titled_pdf_split pre link post :
  Forall (fun l => get l "title" ≠ Some "pdf") pre →
  get link "title" = Some "pdf" →
  first_titled_pdf (pre ++ link :: post) = Some link.
Proof.
  intros Hpre Hlink. unfold first_titled_pdf.
  induction Hpre as [|l pre Hl _ IH]; simpl.
  - by rewrite bool_decide_eq_true_2.
  - by rewrite bool_decide_eq_false_2.
Qed.

Lemma first_titled_pdf_none links :
  first_titled_pdf links = None ↔ Forall (fun l => get l "title" ≠ Some "pdf") links.
Proof.
  unfold first_titled_pdf. induction links as [|l links IH]; simpl.
  - split; [constructor|done].
  - case_bool_decide as Hl.
    + split; [done|]. intros [? _]%Forall_cons. done.
    + rewrite IH, Forall_cons. tauto.
Qed.

Lemma pdf_url_pdf_loop entry :
  pdf_url (parse_entry entry) = pdf_loop (findall entry (ATOM_NS +:+ "link")) "".
Proof. reflexivity. Qed.

(** C3: [pdf_url] is the [href] attribute of the first link element whose
    [title] attribute is ["pdf"], and the empty string when no link element
    has that title. *)
Theorem parse_entry_pdf_url entry :
  let links := findall entry (ATOM_NS +:+ "link") in
  pdf_url (parse_entry entry)
  = match first_titled_pdf links with
    | Some link => from_option id "" (get link "href")
    | None => ""
    end
  ∧ (∀ pre link post href,
       links = pre ++ link :: post →
       Forall (fun l => get l "title" ≠ Some "pdf") pre →
       get link "title" = Some "pdf" →
       get link "href" = Some href →
       pdf_url (parse_entry entry) = href)
  ∧ (Forall (fun l => get l "title" ≠ Some "pdf") links →
     pdf_url (parse_entry entry) = "").
Proof.
  intros links. rewrite pdf_url_pdf_loop. fold links. split_and!.
  - apply pdf_loop_first.
  - intros pre link post href -> Hpre Htitle Hhref.
    induction Hpre as [|l pre Hl _ IH]; simpl.
    + rewrite bool_decide_eq_true_2 by done.
      unfold get_default. by rewrite Hhref.
    + by rewrite bool_decide_eq_false_2.
  - induction 1 as [|l rest Hl _ IH]; simpl; [done|].
    by rewrite bool_decide_eq_false_2.
Qed.

(** C4: [published] is the text of the [published] element as it stands,
    and the empty string without such an element. *)
Theorem parse_entry_published_raw entry :
  published (parse_entry entry) =
    match find entry (ATOM_NS +:+ "published") with
    | Some elem => from_option id "" (text elem)
    | None => ""
    end.
Proof.
  simpl. unfold findtext.
  by destruct (find entry (ATOM_NS +:+ "published")).
Qed.

(** The text is not cleaned on the way: white space at the ends stays. *)
Example published_keeps_white_space :
  published (parse_entry sample_entry) = " 2024-01-01T00:00:00Z "
  ∧ published (parse_entry sample_entry)
    ≠ clean_text (Some (published (parse_entry sample_entry))).
Proof. split; [reflexivity|]. vm_compute. discriminate. Qed.

(** C5: [categories] holds the [term] attribute of exactly the category
    elements that have a non-empty one, in document order. *)
Theorem parse_entry_categories entry :
  categories (parse_entry entry) =
    omap nonempty_term (findall entry (ATOM_NS +:+ "category")).
Proof.
  change (categories (parse_entry entry))
    with (List.map (fun cat => get_default cat "term" "")
            (List.filter (fun cat => Py.truthy (get cat "term"))
               (findall entry (ATOM_NS +:+ "category")))).
  induction (findall entry (ATOM_NS +:+ "category")) as [|cat l IH]; [done|].
  cbn [List.filter omap list_omap]. unfold nonempty_term at 1.
  destruct (get cat "term") as [[|c r]|] eqn:E; cbn [Py.truthy List.map];
    [exact IH| |exact IH].
  unfold get_default at 1. rewrite E. cbn [from_option id]. f_equal. exact IH.
Qed.

Lemma author_name_findtext author :
  clean_text (findtext author (ATOM_NS +:+ "name") None) = author_name author.
Proof.
  unfold author_name, findtext.
  destruct (find author (ATOM_NS +:+ "name")) as [name|]; [|done].
  by destruct (text name).
Qed.

(** C9: the list of authors has one element per author element, in document
    order; an author element without a name child gives the empty string
    and is not dropped. *)
Theorem parse_entry_authors entry :
  authors (parse_entry entry)
    = author_name <$> findall entry (ATOM_NS +:+ "author")
  ∧ length (authors (parse_entry entry))
    = length (findall entry (ATOM_NS +:+ "author"))
  ∧ Forall2 (fun author name =>
               find author (ATOM_NS +:+ "name") = None → name = "")
            (findall entry (ATOM_NS +:+ "author"))
            (authors (parse_entry entry)).
Proof.
  assert (authors (parse_entry entry)
          = author_name <$> findall entry (ATOM_NS +:+ "author")) as E.
  { simpl. apply map_ext. intros a. apply author_name_findtext. }
  split_and!; [exact E|by rewrite E, length_fmap|].
  rewrite E. apply Forall2_fmap_r, Forall_Forall2_diag, Forall_forall.
  intros a _ Ha. unfold author_name. by rewrite Ha.
Qed.

(** C10: when the first link element titled ["pdf"] has no [href], the
    result is the empty string, whatever link elements follow it. *)
Theorem pdf_url_first_match_without_href entry pre link post :
  findall entry (ATOM_NS +:+ "link") = pre ++ link :: post →
  Forall (fun l => get l "title" ≠ Some "pdf") pre →
  get link "title" = Some "pdf" →
  get link "href" = None →
  pdf_url (parse_entry entry) = "".
Proof.
  intros Hlinks Hpre Htitle Hhref.
  rewrite pdf_url_pdf_loop, pdf_loop_first, Hlinks.
  rewrite (first_titled_pdf_split _ _ _ Hpre Htitle). by rewrite Hhref.
Qed.

End ParseEntry.

(** ** Strings: append, prefixes, letter case *)

Section Strings.

Implicit Types (s t p h : string) (c : ascii).

Lemma app_cons c s t : String c s +:+ t = String c (s +:+ t).
Proof. reflexivity. Qed.

Lemma app_assoc_str s t u : (s +:+ t) +:+ u = s +:+ (t +:+ u).
Proof. induction s as [|c s IH]; [done|]. rewrite !app_cons. by rewrite IH. Qed.

Lemma app_length s t : String.length (s +:+ t) = String.length s + String.length t.
Proof. induction s as [|c s IH]; [done|]. rewrite app_cons. simpl. by rewrite IH. Qed.

Lemma startswith_app s p : Py.startswith s p = true ↔ ∃ t, s = p +:+ t.
Proof.
  revert s; induction p as [|c p IH]; intros s; simpl.
  - split; [by exists s|done].
  - destruct s as [|d s]; [split; [done|by intros [? ?]]|].
    destruct (ascii_dec d c) as [->|Hne].
    + rewrite IH. split; intros [t Ht]; exists t.
      * by rewrite app_cons, Ht.
      * rewrite app_cons in Ht. by injection Ht.
    + split; [done|]. intros [t Ht]. rewrite app_cons in Ht. congruence.
Qed.

Lemma lower_app h t : Py.lower (h +:+ t) = Py.lower h +:+ Py.lower t.
Proof. induction h as [|c h IH]; [done|]. rewrite app_cons. simpl. by rewrite IH. Qed.

Lemma lower_split s p t :
  Py.lower s = p +:+ t → ∃ h t', s = h +:+ t' ∧ Py.lower h = p.
Proof.
  revert s; induction p as [|c p IH]; intros s Hs.
  - by exists "", s.
  - destruct s as [|d s]; [done|]. rewrite app_cons in Hs. simpl in Hs.
    injection Hs as Hc Hs. destruct (IH _ Hs) as (h & t' & -> & Hh).
    exists (String d h), t'. split; [done|]. simpl. by rewrite Hc, Hh.
Qed.

(** The test of the filter is the case-insensitive prefix test. *)
Lemma startswith_lower_error s :
  Py.startswith (Py.lower s) "error" = true ↔ ci_startswith s "error".
Proof.
  rewrite startswith_app. split.
  - intros [t Ht]. apply lower_split in Ht as (h & t' & -> & Hh).
    exists h, t'. by rewrite Hh.
  - intros (h & t & -> & Hh). exists (Py.lower t).
    rewrite lower_app, Hh. done.
Qed.

Lemma strip_prefix_app p s : strip_prefix p (p +:+ s) = Some s.
Proof.
  induction p as [|c p IH]; [done|]. rewrite app_cons. simpl.
  destruct (ascii_dec c c); [exact IH|done].
Qed.

Lemma strip_suffix_unfold t s :
  strip_suffix t s =
    if bool_decide (s = t) then Some ""
    else match s with
         | "" => None
         | String c r => String c <$> strip_suffix t r
         end.
Proof. by destruct s. Qed.

Lemma strip_suffix_app s t : strip_suffix t (s +:+ t) = Some s.
Proof.
  induction s as [|c s IH]; rewrite strip_suffix_unfold.
  - by rewrite bool_decide_eq_true_2.
  - rewrite app_cons, bool_decide_eq_false_2, IH; [done|].
    intros E. apply (f_equal String.length) in E.
    simpl in E. rewrite app_length in E. lia.
Qed.

(** The payload of a script text is the JSON text it was built from. *)
Lemma embedded_payload_script_text (json_str : string) :
  embedded_payload (script_text json_str) = Some json_str.
Proof.
  unfold embedded_payload, script_text.
  rewrite strip_prefix_app. simpl. apply strip_suffix_app.
Qed.

Lemma path_join_papers (dir : string) :
  path_join dir "papers.json" ≠ path_join dir "papers.js".
Proof.
  unfold path_join. change (Py.startswith _ "/") with false. cbn match.
  destruct (bool_decide (dir = "") || ends_with_slash dir);
    intros E; repeat apply (inj (String.app _)) in E; discriminate.
Qed.

Lemma OUTPUT_paths_differ (w : World) : OUTPUT_JSON w ≠ OUTPUT_JS w.
Proof. apply path_join_papers. Qed.

End Strings.

(** ** The run: [fetch_papers] and [main] *)

Section Run.

Variable fromstring : string → option Element.

Implicit Types (w : World) (s : State) (entries : list Element).

Lemma bind_return {A B} (m : M A) (k : A → M B) s a s' :
  m s = (Return a, s') → (m ≫= k) s = k a s'.
Proof. intros E. unfold mbind, M_bind. by rewrite E. Qed.

Lemma bind_sys_exit {A B} (m : M A) (k : A → M B) s code s' :
  m s = (SysExit code, s') → (m ≫= k) s = (SysExit code, s').
Proof. intros E. unfold mbind, M_bind. by rewrite E. Qed.

Lemma bind_raise {A B} (m : M A) (k : A → M B) s exc s' :
  m s = (Raise exc, s') → (m ≫= k) s = (Raise exc, s').
Proof. intros E. unfold mbind, M_bind. by rewrite E. Qed.

Lemma print_to_run out line s :
  print_to out line s
  = (Return tt, mkState (console s ++ [(out, line)]) (files s)).
Proof. reflexivity. Qed.

(** The loop keeps the records of the entries that pass the test, in the
    order of the entries, and prints one line per entry that fails it. *)
Lemma entries_loop_run entries (papers : list Paper) s :
  entries_loop entries papers s
  = (Return (papers ++ (parse_entry <$>
                          List.filter (fun e => negb (error_entry e)) entries)),
     mkState (console s ++ error_lines entries) (files s)).
Proof.
  revert papers s; induction entries as [|entry rest IH]; intros papers s.
  - destruct s. cbn. by rewrite !app_nil_r.
  - cbn [entries_loop List.filter]. unfold error_lines. cbn [List.filter].
    fold (error_entry entry). destruct (error_entry entry); cbn [negb].
    + erewrite bind_return by apply print_to_run.
      rewrite IH. cbn [console files fmap list_fmap].
      unfold error_lines. by rewrite <- app_assoc.
    + rewrite IH. cbn [fmap list_fmap]. by rewrite <- app_assoc.
Qed.

(** A run of [fetch_papers] on a response with status 200 and a
    well-formed body. *)
Lemma fetch_papers_run w s data root :
  urlopen w build_query_url = Response 200 data →
  fromstring data = Some root →
  fetch_papers fromstring w s
  = (Return (parse_entry <$>
               List.filter (fun e => negb (error_entry e))
                           (findall root (ATOM_NS +:+ "entry"))),
     mkState (console s
              ++ (stdout, "Fetching: " +:+ build_query_url)
                 :: feed_lines (findall root (ATOM_NS +:+ "entry")))
             (files s)).
Proof.
  intros Hurl Hroot. unfold fetch_papers.
  erewrite bind_return by apply print_to_run.
  rewrite Hurl. rewrite bool_decide_eq_false_2 by (intros E; by apply E).
  erewrite bind_return by reflexivity.
  rewrite Hroot. erewrite bind_return by reflexivity.
  destruct (findall root (ATOM_NS +:+ "entry")) as [|entry rest] eqn:E.
  - erewrite bind_return by apply print_to_run.
    cbn. by rewrite <- app_assoc.
  - erewrite bind_return by apply entries_loop_run.
    erewrite bind_return by apply print_to_run.
    cbn [console files app mret M_ret feed_lines].
    rewrite length_fmap, <- !app_assoc. done.
Qed.

(** A run of [fetch_papers] after a failed fetch: two lines, exit 1. *)
Lemma fetch_papers_failure w s :
  (∃ exc, urlopen w build_query_url = UrlRaise exc)
  ∨ (∃ status data,
       urlopen w build_query_url = Response status data ∧ status ≠ 200%Z) →
  ∃ diagnostic,
    fetch_papers fromstring w s
    = (SysExit 1,
       mkState (console s ++ [(stdout, "Fetching: " +:+ build_query_url);
                              (stderr, diagnostic)])
               (files s)).
Proof.
  intros [[exc Hurl]|(status & data & Hurl & Hstatus)]; unfold fetch_papers;
    erewrite bind_return by apply print_to_run; rewrite Hurl.
  - exists ("Error fetching arXiv API: " +:+ exc).
    erewrite bind_sys_exit; [done|].
    erewrite bind_return by apply print_to_run.
    cbn. by rewrite <- app_assoc.
  - exists ("Error: HTTP " +:+ pretty status).
    rewrite bool_decide_eq_true_2 by done.
    erewrite bind_sys_exit; [done|].
    erewrite bind_return by apply print_to_run.
    cbn. by rewrite <- app_assoc.
Qed.

(** [fetch_papers] writes no file, however it ends. *)
Lemma fetch_papers_files w s :
  files (fetch_papers fromstring w s).2 = files s.
Proof.
  destruct (urlopen w build_query_url) as [exc|status data] eqn:Hurl.
  - destruct (fetch_papers_failure w s) as [d ->]; [eauto|done].
  - destruct (decide (status = 200%Z)) as [->|Hstatus].
    + destruct (fromstring data) as [root|] eqn:Hroot.
      * by rewrite (fetch_papers_run _ _ _ _ Hurl Hroot).
      * unfold fetch_papers.
        erewrite bind_return by apply print_to_run.
        rewrite Hurl, bool_decide_eq_false_2 by (intros E; by apply E).
        erewrite bind_return by reflexivity.
        rewrite Hroot. done.
    + destruct (fetch_papers_failure w s) as [d ->]; [eauto 6|done].
Qed.

Lemma write_file_run w path content s :
  writable w path = true →
  write_file w path content s
  = (Return tt, mkState (console s) (<[path := content]> (files s))).
Proof. intros E. unfold write_file. by rewrite E. Qed.

Lemma write_file_failed w path content s :
  writable w path = false →
  write_file w path content s
  = (Raise "OSError",
     mkState (console s)
             (match failed_write w path with
              | None => files s
              | Some rest => <[path := rest]> (files s)
              end)).
Proof.
  intros E. unfold write_file. rewrite E.
  destruct (failed_write w path); [done|by destruct s].
Qed.

(** A run of [main] after [fetch_papers] returned, both files writable. *)
Lemma main_run w s papers s1 :
  fetch_papers fromstring w s = (Return papers, s1) →
  writable w (OUTPUT_JSON w) = true →
  writable w (OUTPUT_JS w) = true →
  let json_str := Json.dumps (feed_result (utc_now w) papers) in
  main fromstring w s
  = (Return tt,
     mkState (console s1
              ++ [(stdout, "Wrote " +:+ pretty (length papers) +:+ " papers to "
                           +:+ OUTPUT_JSON w +:+ " and " +:+ OUTPUT_JS w)])
             (<[OUTPUT_JS w := script_text json_str]>
                (<[OUTPUT_JSON w := json_str]> (files s1)))).
Proof.
  intros Hfetch Hjson Hjs json_str. unfold main.
  erewrite bind_return by exact Hfetch.
  erewrite bind_return by (by apply write_file_run).
  erewrite bind_return by (by apply write_file_run).
  reflexivity.
Qed.

Lemma empty_feed_json_dumps (now : string) :
  Json.dumps (feed_result now []) = empty_feed_json now.
Proof.
  unfold Json.dumps, feed_result, empty_feed_json, quoted.
  cbn [Json.iterencode List.map fmap list_fmap String.concat].
  unfold Json.encode_basestring, Json.newline_indent.
  cbn [Json.spaces].
  rewrite !app_assoc_str. reflexivity.
Qed.

Lemma filter_all_pass {A} (f : A → bool) (l : list A) :
  Forall (fun x => f x = true) l → List.filter f l = l.
Proof. induction 1 as [|x l Hx _ IH]; simpl; [done|]. by rewrite Hx, IH. Qed.

(** C1: on a feed with N entries none of whose titles begins, in any letter
    case, with "error", the pipeline gives N records in the order of the
    entries; an entry whose title does begin so is not in the output. *)
Theorem fetch_papers_filters_error_entries w s data root :
  urlopen w build_query_url = Response 200 data →
  fromstring data = Some root →
  ∃ papers s',
    fetch_papers fromstring w s = (Return papers, s')
    ∧ (Forall (fun e => ¬ ci_startswith (title (parse_entry e)) "error")
              (findall root (ATOM_NS +:+ "entry")) →
       papers = parse_entry <$> findall root (ATOM_NS +:+ "entry")
       ∧ length papers = length (findall root (ATOM_NS +:+ "entry")))
    ∧ (∀ e, e ∈ findall root (ATOM_NS +:+ "entry") →
            ci_startswith (title (parse_entry e)) "error" →
            (parse_entry e ∉ papers)
            ∧ ((stderr, "API error entry: " +:+ title (parse_entry e))
               ∈ console s'))
    ∧ papers = parse_entry <$>
                 List.filter (fun e => negb (error_entry e))
                             (findall root (ATOM_NS +:+ "entry")).
Proof.
  intros Hurl Hroot. eexists _, _.
  split; [exact (fetch_papers_run w s data root Hurl Hroot)|].
  set (entries := findall root (ATOM_NS +:+ "entry")).
  split_and!; [| |done].
  - intros Hnone. rewrite filter_all_pass.
    + by rewrite length_fmap.
    + eapply Forall_impl; [exact Hnone|]. intros e He. cbn beta in *.
      apply negb_true_iff, not_true_is_false.
      unfold error_entry. by rewrite startswith_lower_error.
  - intros e He Herr. apply startswith_lower_error in Herr. split.
    + intros (e' & Heq & Hin)%list_elem_of_fmap.
      apply list_elem_of_In, filter_In in Hin as [_ Hpass].
      apply negb_true_iff in Hpass. unfold error_entry in Hpass.
      rewrite <- Heq in Hpass. congruence.
    + cbn [console]. apply elem_of_app. right. apply elem_of_cons. right.
      assert ((stderr, "API error entry: " +:+ title (parse_entry e))
              ∈ error_lines entries) as Hline.
      { unfold error_lines. apply list_elem_of_fmap. exists e. split; [done|].
        apply list_elem_of_In, filter_In. split; [by apply list_elem_of_In|done]. }
      unfold feed_lines. destruct entries; [by apply elem_of_nil in He|].
      apply elem_of_app. by left.
Qed.

(** C6: a run on a fetched, well-formed feed with both files writable ends
    normally, with the JSON text in the JSON file and, in the script file,
    the prefix, exactly that text, a semicolon and a line feed; whenever a
    run ends normally the two files stand in that relation, so that the
    payload embedded in the script file parses to what the JSON file parses
    to; a run that does not end normally has completed no write of the
    script file: the file is as it was, or holds what a failed write left. *)
Theorem main_script_embeds_json w s :
  (∀ data root,
     urlopen w build_query_url = Response 200 data →
     fromstring data = Some root →
     writable w (OUTPUT_JSON w) = true →
     writable w (OUTPUT_JS w) = true →
     ∃ json_str s',
       main fromstring w s = (Return tt, s')
       ∧ json_str
         = Json.dumps
             (feed_result (utc_now w)
                (parse_entry <$>
                   List.filter (fun e => negb (error_entry e))
                               (findall root (ATOM_NS +:+ "entry"))))
       ∧ files s' !! OUTPUT_JSON w = Some json_str
       ∧ files s' !! OUTPUT_JS w
         = Some ("const PAPERS_DATA = " +:+ json_str +:+ ";" +:+ String Py.LF ""))
  ∧ (let '(r, s') := main fromstring w s in
     match r with
     | Return _ =>
         ∃ json_str,
           files s' !! OUTPUT_JSON w = Some json_str
           ∧ files s' !! OUTPUT_JS w
             = Some ("const PAPERS_DATA = " +:+ json_str +:+ ";" +:+ String Py.LF "")
           ∧ ∀ (A : Type) (loads : string → A),
               loads <$> (files s' !! OUTPUT_JS w ≫= embedded_payload)
               = Some (loads json_str)
     | _ =>
         files s' !! OUTPUT_JS w = files s !! OUTPUT_JS w
         ∨ (writable w (OUTPUT_JS w) = false
            ∧ ∃ rest, failed_write w (OUTPUT_JS w) = Some rest
                      ∧ files s' !! OUTPUT_JS w = Some rest)
     end).
Proof.
  pose proof (OUTPUT_paths_differ w) as Hpaths. split.
  - intros data root Hurl Hroot Hjson Hjs.
    pose proof (fetch_papers_run w s data root Hurl Hroot) as Hfetch.
    pose proof (main_run w s _ _ Hfetch Hjson Hjs) as Hmain.
    cbn zeta in Hmain. eexists _, _.
    split_and!; [exact Hmain|reflexivity| |]; cbn [files].
    + by rewrite lookup_insert_ne, lookup_insert_eq.
    + apply lookup_insert_eq.
  - pose proof (fetch_papers_files w s) as Hfiles.
    destruct (fetch_papers fromstring w s) as [r s1] eqn:Hfetch.
    simpl in Hfiles. unfold main. destruct r as [papers|code|exc].
    + erewrite bind_return by exact Hfetch.
      destruct (writable w (OUTPUT_JSON w)) eqn:Hjson.
      * erewrite bind_return by (by apply write_file_run).
        destruct (writable w (OUTPUT_JS w)) eqn:Hjs.
        -- erewrite bind_return by (by apply write_file_run).
           rewrite print_to_run. cbn [files].
           eexists. rewrite lookup_insert_ne, !lookup_insert_eq by done.
           split_and!; [done|done|]. intros A loads. cbn [mbind option_bind].
           pose proof embedded_payload_script_text as Hpayload.
           unfold script_text in Hpayload. by rewrite Hpayload.
        -- erewrite bind_raise by (by apply write_file_failed).
           cbn [files].
           destruct (failed_write w (OUTPUT_JS w)) as [rest|] eqn:Hrest.
           ++ right. split; [done|]. exists rest.
              by rewrite lookup_insert_eq.
           ++ left. by rewrite lookup_insert_ne, Hfiles.
      * erewrite bind_raise by (by apply write_file_failed).
        cbn [files]. left.
        destruct (failed_write w (OUTPUT_JSON w));
          by rewrite ?lookup_insert_ne, Hfiles.
    + erewrite bind_sys_exit by exact Hfetch. left. by rewrite Hfiles.
    + erewrite bind_raise by exact Hfetch. left. by rewrite Hfiles.
Qed.

(** C7: on a feed without entry elements the pipeline prints a warning and
    returns the empty list; the run ends with exit code 0 and writes both
    files, with an empty array of papers. *)
Theorem main_empty_feed w s data root :
  urlopen w build_query_url = Response 200 data →
  fromstring data = Some root →
  findall root (ATOM_NS +:+ "entry") = [] →
  writable w (OUTPUT_JSON w) = true →
  writable w (OUTPUT_JS w) = true →
  ∃ s1 s',
    fetch_papers fromstring w s = (Return [], s1)
    ∧ (stdout, "Warning: No entries returned by arXiv API.") ∈ console s1
    ∧ main fromstring w s = (Return tt, s')
    ∧ exit_code (main fromstring w s).1 = 0%Z
    ∧ files s' !! OUTPUT_JSON w = Some (empty_feed_json (utc_now w))
    ∧ files s' !! OUTPUT_JS w = Some (script_text (empty_feed_json (utc_now w))).
Proof.
  intros Hurl Hroot Hnone Hjson Hjs.
  pose proof (fetch_papers_run w s data root Hurl Hroot) as Hfetch.
  rewrite Hnone in Hfetch. cbn [List.filter fmap list_fmap feed_lines] in Hfetch.
  pose proof (main_run w s [] _ Hfetch Hjson Hjs) as Hmain. cbn zeta in Hmain.
  rewrite empty_feed_json_dumps in Hmain.
  eexists _, _. split_and!; [exact Hfetch| |exact Hmain|by rewrite Hmain| |].
  - cbn [console]. apply elem_of_app. right. set_solver.
  - cbn [files]. rewrite lookup_insert_ne by apply not_eq_sym, OUTPUT_paths_differ.
    apply lookup_insert_eq.
  - cbn [files]. apply lookup_insert_eq.
Qed.

(** C8: when the fetch raises, or answers with a status other than 200, the
    process prints a diagnostic on standard error and ends with exit code 1;
    no file is written. *)
Theorem main_fetch_failure w s :
  (∃ exc, urlopen w build_query_url = UrlRaise exc)
  ∨ (∃ status data,
       urlopen w build_query_url = Response status data ∧ status ≠ 200%Z) →
  ∃ diagnostic s',
    main fromstring w s = (SysExit 1, s')
    ∧ exit_code (main fromstring w s).1 = 1%Z
    ∧ console s'
      = console s ++ [(stdout, "Fetching: " +:+ build_query_url);
                      (stderr, diagnostic)]
    ∧ files s' = files s.
Proof.
  intros Hfail. destruct (fetch_papers_failure w s Hfail) as [diagnostic Hfetch].
  assert (main fromstring w s = (SysExit 1, _)) as Hmain
    by (unfold main; erewrite bind_sys_exit by exact Hfetch; reflexivity).
  exists diagnostic. eexists. split_and!; [exact Hmain|by rewrite Hmain|done|done].
Qed.

End Run.

(** ** The theorems at the sample data *)

Example parse_entry_sample :
  parse_entry sample_entry
  = {| title := "A study of X";
       authors := ["Ann B"; ""];
       abstract := "";
       published := " 2024-01-01T00:00:00Z ";
       abstract_url := "";
       pdf_url := "";
       categories := ["cs.LG"; "q-bio.QM"] |}.
Proof. reflexivity. Qed.

Example fetch_papers_sample :
  (fetch_papers (parser_of sample_feed)
                (sample_world (Response 200 sample_body)) sample_state).1
  = Return [parse_entry (titled_entry "Maternal  outcomes");
            parse_entry sample_entry].
Proof. vm_compute. reflexivity. Qed.

(** Three entries, none with an error title: three records, in order. *)
Example fetch_papers_plain :
  (fetch_papers (parser_of plain_feed)
                (sample_world (Response 200 sample_body)) sample_state).1
  = Return [parse_entry (titled_entry "Terror management in  obstetrics");
            parse_entry sample_entry;
            parse_entry (titled_entry "errata")]
  ∧ title (parse_entry (titled_entry "Terror management in  obstetrics"))
    = "Terror management in obstetrics".
Proof. split; vm_compute; reflexivity. Qed.

Lemma parse_entry_pdf_url_witness :
  pdf_url (parse_entry linked_entry) = "http://arxiv.org/pdf/2401.00001".
Proof.
  apply (proj1 (proj2 (parse_entry_pdf_url linked_entry))
           [link_alternate] link_with_href [link_without_href]).
  - reflexivity.
  - constructor; [vm_compute; discriminate|constructor].
  - reflexivity.
  - reflexivity.
Defined.

Lemma pdf_url_first_match_without_href_witness :
  pdf_url (parse_entry sample_entry) = "".
Proof.
  apply (pdf_url_first_match_without_href
           sample_entry [link_alternate] link_without_href [link_with_href]).
  - reflexivity.
  - constructor; [vm_compute; discriminate|constructor].
  - reflexivity.
  - reflexivity.
Defined.

Lemma fetch_papers_filters_error_entries_witness :
  ∃ papers s',
    fetch_papers (parser_of sample_feed)
                 (sample_world (Response 200 sample_body)) sample_state
    = (Return papers, s')
    ∧ (Forall (fun e => ¬ ci_startswith (title (parse_entry e)) "error")
              (findall sample_feed (ATOM_NS +:+ "entry")) →
       papers = parse_entry <$> findall sample_feed (ATOM_NS +:+ "entry")
       ∧ length papers = length (findall sample_feed (ATOM_NS +:+ "entry")))
    ∧ (∀ e, e ∈ findall sample_feed (ATOM_NS +:+ "entry") →
            ci_startswith (title (parse_entry e)) "error" →
            (parse_entry e ∉ papers)
            ∧ ((stderr, "API error entry: " +:+ title (parse_entry e))
               ∈ console s'))
    ∧ papers = parse_entry <$>
                 List.filter (fun e => negb (error_entry e))
                             (findall sample_feed (ATOM_NS +:+ "entry")).
Proof.
  apply (fetch_papers_filters_error_entries
           (parser_of sample_feed) (sample_world (Response 200 sample_body))
           sample_state sample_body sample_feed).
  - reflexivity.
  - reflexivity.
Defined.

Lemma main_empty_feed_witness :
  ∃ s1 s',
    fetch_papers (parser_of empty_feed)
                 (sample_world (Response 200 sample_body)) sample_state
    = (Return [], s1)
    ∧ (stdout, "Warning: No entries returned by arXiv API.") ∈ console s1
    ∧ main (parser_of empty_feed)
           (sample_world (Response 200 sample_body)) sample_state
      = (Return tt, s')
    ∧ exit_code (main (parser_of empty_feed)
                      (sample_world (Response 200 sample_body)) sample_state).1
      = 0%Z
    ∧ files s' !! "/srv/site/papers.json"
      = Some (empty_feed_json "2026-11-04 07:43:00 UTC")
    ∧ files s' !! "/srv/site/papers.js"
      = Some (script_text (empty_feed_json "2026-11-04 07:43:00 UTC")).
Proof.
  apply (main_empty_feed
           (parser_of empty_feed) (sample_world (Response 200 sample_body))
           sample_state sample_body empty_feed).
  - reflexivity.
  - reflexivity.
  - reflexivity.
  - reflexivity.
  - reflexivity.
Defined.

Lemma main_fetch_failure_witness :
  ∃ diagnostic s',
    main (parser_of sample_feed)
         (sample_world (Response 404 sample_body)) sample_state
    = (SysExit 1, s')
    ∧ exit_code (main (parser_of sample_feed)
                      (sample_world (Response 404 sample_body)) sample_state).1
      = 1%Z
    ∧ console s'
      = console sample_state
        ++ [(stdout, "Fetching: " +:+ build_query_url); (stderr, diagnostic)]
    ∧ files s' = files sample_state.
Proof.
  apply (main_fetch_failure
           (parser_of sample_feed) (sample_world (Response 404 sample_body))
           sample_state).
  right. exists 404%Z, sample_body. split; [reflexivity|discriminate].
Defined.

(** The same at a transport error, and what the two runs print. *)
Example failed_fetch_lines :
  (let '(r, s') := main (parser_of sample_feed)
                        (sample_world (Response 404 sample_body)) sample_state in
   (exit_code r, last (console s'), files s'))
  = (1%Z, Some (stderr, "Error: HTTP 404"), files sample_state)
  ∧ (let '(r, s') := main (parser_of sample_feed)
                          (sample_world (UrlRaise "<urlopen error timed out>"))
                          sample_state in
     (exit_code r, last (console s'), files s'))
    = (1%Z,
       Some (stderr, "Error fetching arXiv API: <urlopen error timed out>"),
       files sample_state).
Proof. split; vm_compute; reflexivity. Qed.

(** ** More on [clean_text] *)

Section CleanTextMore.

Implicit Types (s t r a b : string) (c : ascii).

Lemma words_nil s : words s = [] ↔ all_ws s = true.
Proof.
  induction s as [|c r IH]; simpl; [done|].
  destruct (Py.isspace c); simpl; [exact IH|].
  destruct (starts_word r); [destruct (words r)|]; done.
Qed.

Lemma concat_words_nil s : String.concat " " (words s) = "" ↔ words s = [].
Proof.
  split; [|by intros ->].
  destruct (words s) as [|w ws] eqn:E; [done|].
  destruct (concat_words_head _ _ _ E) as (c & r & Hc & _).
  rewrite E in Hc. by rewrite Hc.
Qed.

(** X1: [clean_text] leaves a string as it is exactly when the string is
    already normalized; in particular cleaning twice is cleaning once. *)
Theorem clean_text_fixed_points (s : string) (text : option string) :
  (clean_text (Some s) = s ↔ normalized s)
  ∧ clean_text (Some (clean_text text)) = clean_text text.
Proof.
  split.
  - split; [|apply clean_text_fixed].
    intros E. rewrite <- E. apply clean_text_normalized.
  - apply clean_text_fixed, clean_text_normalized.
Qed.

(** X2: the result is empty exactly when there is no text or the text is
    white space throughout. *)
Theorem clean_text_empty (text : option string) :
  clean_text text = "" ↔ from_option all_ws true text = true.
Proof.
  destruct text as [t|]; [|done]. cbn [from_option].
  by rewrite clean_text_words, concat_words_nil, words_nil.
Qed.

Lemma words_ws_l a t : all_ws a = true → words (a +:+ t) = words t.
Proof.
  induction a as [|c a IH]; [done|]. rewrite app_cons. simpl.
  intros [-> Ha]%andb_prop. by apply IH.
Qed.

Lemma starts_word_ws_r r b : all_ws b = true → starts_word (r +:+ b) = starts_word r.
Proof.
  destruct r as [|c r]; [|done]. change ("" +:+ b) with b.
  destruct b as [|d b]; simpl; [done|]. by intros [-> _]%andb_prop.
Qed.

Lemma words_ws_r t b : all_ws b = true → words (t +:+ b) = words t.
Proof.
  intros Hb. induction t as [|c r IH].
  - change ("" +:+ b) with b. by apply words_nil.
  - rewrite app_cons. simpl. by rewrite IH, starts_word_ws_r.
Qed.

(** X3: white space before and after the text does not matter. *)
Theorem clean_text_surrounding_ws (a t b : string) :
  all_ws a = true → all_ws b = true →
  clean_text (Some (a +:+ t +:+ b)) = clean_text (Some t).
Proof.
  intros Ha Hb. rewrite !clean_text_words.
  by rewrite words_ws_l, words_ws_r.
Qed.

Lemma non_ws_sub_ws (in_run : bool) s : non_ws (Py.sub_ws_from in_run s) = non_ws s.
Proof.
  revert in_run; induction s as [|c r IH]; intros in_run; simpl; [done|].
  destruct (Py.isspace c) eqn:Hc.
  - destruct in_run; [apply IH|]. simpl. apply IH.
  - simpl. by rewrite Hc, IH.
Qed.

Lemma non_ws_lstrip s : non_ws (Py.lstrip s) = non_ws s.
Proof.
  induction s as [|c r IH]; simpl; [done|].
  destruct (Py.isspace c) eqn:Hc; [exact IH|]. simpl. by rewrite Hc.
Qed.

Lemma non_ws_rstrip s : non_ws (Py.rstrip s) = non_ws s.
Proof.
  induction s as [|c r IH]; [done|]. rewrite rstrip_cons.
  cbn [non_ws]. rewrite <- IH.
  destruct (Py.rstrip r) as [|d r'].
  - destruct (Py.isspace c) eqn:Hc; simpl; by rewrite ?Hc.
  - reflexivity.
Qed.

Lemma length_sub_ws (in_run : bool) s :
  String.length (Py.sub_ws_from in_run s) ≤ String.length s.
Proof.
  revert in_run; induction s as [|c r IH]; intros in_run; simpl; [done|].
  pose proof (IH true). pose proof (IH false).
  destruct (Py.isspace c); [destruct in_run|]; simpl; lia.
Qed.

Lemma length_lstrip s : String.length (Py.lstrip s) ≤ String.length s.
Proof.
  induction s as [|c r IH]; simpl; [done|].
  destruct (Py.isspace c); simpl; lia.
Qed.

Lemma length_rstrip s : String.length (Py.rstrip s) ≤ String.length s.
Proof.
  induction s as [|c r IH]; [done|]. rewrite rstrip_cons.
  destruct (Py.rstrip r); [destruct (Py.isspace c)|]; simpl in *; lia.
Qed.

(** X4: cleaning neither drops nor changes nor reorders a character that is
    not white space, and the result is never longer than the text. *)
Theorem clean_text_keeps_content (t : string) :
  non_ws (clean_text (Some t)) = non_ws t
  ∧ String.length (clean_text (Some t)) ≤ String.length t.
Proof.
  unfold clean_text, Py.strip, Py.sub_ws. split.
  - by rewrite non_ws_rstrip, non_ws_lstrip, non_ws_sub_ws.
  - etrans; [apply length_rstrip|]. etrans; [apply length_lstrip|].
    apply length_sub_ws.
Qed.

End CleanTextMore.

(** ** More on [parse_entry] *)

Section ParseEntryMore.

Implicit Types (entry e : Element) (path : string).

Lemma filter_filter_tag path (l : list Element) :
  path ∈ entry_tags →
  List.filter (fun c => bool_decide (tag c = path))
    (List.filter (fun c => bool_decide (tag c ∈ entry_tags)) l)
  = List.filter (fun c => bool_decide (tag c = path)) l.
Proof.
  intros Hpath. induction l as [|c l IH]; [done|]. cbn [List.filter].
  destruct (bool_decide (tag c ∈ entry_tags)) eqn:Hc; cbn [List.filter].
  - by rewrite IH.
  - rewrite IH. apply bool_decide_eq_false in Hc.
    rewrite bool_decide_eq_false_2; [done|]. intros Etag. by rewrite Etag in Hc.
Qed.

(** The record is a function of the seven lists that [findall] gives. *)
Lemma parse_entry_ext e e' :
  (∀ path, path ∈ entry_tags → findall e path = findall e' path) →
  parse_entry e = parse_entry e'.
Proof.
  intros H. unfold parse_entry, findtext, find.
  rewrite !(H (ATOM_NS +:+ _)) by (apply (bool_decide_unpack _); by vm_compute).
  reflexivity.
Qed.

(** X5: the record depends on nothing but the children of the entry whose
    tag is one of the seven that are looked up: not on the tag, the
    attributes or the text of the entry, nor on any other child. *)
Theorem parse_entry_reads_only_its_tags e e' :
  List.filter (fun c => bool_decide (tag c ∈ entry_tags)) (children e)
  = List.filter (fun c => bool_decide (tag c ∈ entry_tags)) (children e') →
  parse_entry e = parse_entry e'.
Proof.
  intros E. apply parse_entry_ext. intros path Hpath. unfold findall.
  rewrite <- (filter_filter_tag path (children e)) by done.
  rewrite <- (filter_filter_tag path (children e')) by done.
  by rewrite E.
Qed.

(** X6: an entry without any of the seven elements gives the record with
    every field empty; nothing is required of an entry. *)
Theorem parse_entry_defaults entry :
  Forall (fun c => tag c ∉ entry_tags) (children entry) →
  parse_entry entry = empty_paper.
Proof.
  intros Hnone.
  rewrite (parse_entry_ext entry (with_children entry [])); [done|].
  intros path Hpath. unfold findall. cbn [children with_children List.filter].
  induction Hnone as [|c l Hc _ IH]; [done|]. cbn [List.filter].
  rewrite bool_decide_eq_false_2; [exact IH|].
  intros Etag. by rewrite Etag in Hc.
Qed.

(** X7: [abstract_url] is the cleaned text of the id element, empty without
    one. *)
Theorem parse_entry_abstract_url entry :
  cleaned_from (findtext entry (ATOM_NS +:+ "id") None)
               (abstract_url (parse_entry entry))
  ∧ (find entry (ATOM_NS +:+ "id") = None →
     abstract_url (parse_entry entry) = "").
Proof.
  split; [apply cleaned_from_clean_text|].
  intros Hnone. cbn [abstract_url parse_entry]. unfold findtext.
  by rewrite Hnone.
Qed.

(** X8: no category of a record is the empty string, and there are at most
    as many categories as category elements. *)
Theorem parse_entry_categories_nonempty entry :
  Forall (fun term => term ≠ "") (categories (parse_entry entry))
  ∧ length (categories (parse_entry entry))
    ≤ length (findall entry (ATOM_NS +:+ "category")).
Proof.
  change (categories (parse_entry entry))
    with (List.map (fun cat => get_default cat "term" "")
            (List.filter (fun cat => Py.truthy (get cat "term"))
               (findall entry (ATOM_NS +:+ "category")))).
  induction (findall entry (ATOM_NS +:+ "category")) as [|cat l [IH1 IH2]];
    [split; [constructor|done]|].
  cbn [List.filter]. destruct (get cat "term") as [[|c r]|] eqn:E;
    cbn [Py.truthy List.map length]; try (split; [exact IH1|lia]).
  split; [|lia]. constructor; [|exact IH1].
  unfold get_default. by rewrite E.
Qed.

End ParseEntryMore.

Lemma parse_entry_reads_only_its_tags_witness :
  parse_entry sample_entry
  = parse_entry (mkElement "other" {[ "k" := "v" ]} (Some "text")
                   (leaf "updated" "2024" :: children sample_entry)).
Proof.
  apply (parse_entry_reads_only_its_tags sample_entry). reflexivity.
Defined.

Lemma parse_entry_defaults_witness : parse_entry bare_entry = empty_paper.
Proof.
  apply (parse_entry_defaults bare_entry).
  repeat constructor; apply (bool_decide_unpack _); vm_compute; exact I.
Defined.

(** ** More on the run *)

Section RunMore.

Variable fromstring : string → option Element.

Implicit Types (w : World) (s : State) (entries : list Element).

(** Every run of [fetch_papers] in one step. *)
Lemma fetch_papers_outcome w s :
  fetch_papers fromstring w s
  = ((fetch_outcome fromstring w).1,
     mkState (console s ++ (fetch_outcome fromstring w).2) (files s)).
Proof.
  unfold fetch_outcome.
  destruct (urlopen w build_query_url) as [exc|status data] eqn:Hurl.
  - unfold fetch_papers. erewrite bind_return by apply print_to_run.
    rewrite Hurl. erewrite bind_sys_exit; [done|].
    erewrite bind_return by apply print_to_run.
    cbn. by rewrite <- app_assoc.
  - case_bool_decide as Hstatus.
    + subst status. destruct (fromstring data) as [root|] eqn:Hroot.
      * by rewrite (fetch_papers_run fromstring w s data root Hurl Hroot).
      * unfold fetch_papers. erewrite bind_return by apply print_to_run.
        rewrite Hurl, bool_decide_eq_false_2 by (intros E; by apply E).
        erewrite bind_return by reflexivity.
        rewrite Hroot. reflexivity.
    + unfold fetch_papers. erewrite bind_return by apply print_to_run.
      rewrite Hurl, bool_decide_eq_true_2 by done.
      erewrite bind_sys_exit; [done|].
      erewrite bind_return by apply print_to_run.
      cbn. by rewrite <- app_assoc.
Qed.

(** Every run of [main] in one step. *)
Lemma main_outcome w s :
  ∃ lines,
    main fromstring w s
    = (main_result fromstring w,
       mkState (console s ++ lines) (main_files fromstring w (files s))).
Proof.
  unfold main, main_result, main_files.
  pose proof (fetch_papers_outcome w s) as Hfetch.
  destruct (fetch_outcome fromstring w) as [r lines]. cbn [fst snd] in *.
  destruct r as [papers|code|exc].
  - erewrite bind_return by exact Hfetch.
    destruct (writable w (OUTPUT_JSON w)) eqn:Hjson.
    + erewrite bind_return by (by apply write_file_run).
      destruct (writable w (OUTPUT_JS w)) eqn:Hjs.
      * erewrite bind_return by (by apply write_file_run).
        rewrite print_to_run. cbn [console files andb].
        eexists. by rewrite <- app_assoc.
      * erewrite bind_raise by (by apply write_file_failed).
        cbn [console files andb]. exists lines.
        by destruct (failed_write w (OUTPUT_JS w)).
    + erewrite bind_raise by (by apply write_file_failed).
      cbn [console files andb]. exists lines.
      by destruct (failed_write w (OUTPUT_JSON w)).
  - erewrite bind_sys_exit by exact Hfetch. by exists lines.
  - erewrite bind_raise by exact Hfetch. by exists lines.
Qed.

Lemma main_outcome_result w s : (main fromstring w s).1 = main_result fromstring w.
Proof. destruct (main_outcome w s) as [lines ->]. done. Qed.

Lemma main_outcome_files w s :
  files (main fromstring w s).2 = main_files fromstring w (files s).
Proof. destruct (main_outcome w s) as [lines ->]. done. Qed.

Lemma fetch_outcome_ok w data root :
  urlopen w build_query_url = Response 200 data →
  fromstring data = Some root →
  fetch_outcome fromstring w
  = (Return (parse_entry <$>
               List.filter (fun e => negb (error_entry e))
                           (findall root (ATOM_NS +:+ "entry"))),
     (stdout, "Fetching: " +:+ build_query_url)
       :: feed_lines (findall root (ATOM_NS +:+ "entry"))).
Proof. intros Hurl Hroot. unfold fetch_outcome. by rewrite Hurl, Hroot. Qed.

Lemma stderr_lines_error_lines entries :
  stderr_lines (error_lines entries)
  = (fun e => "API error entry: " +:+ title (parse_entry e))
      <$> List.filter error_entry entries.
Proof.
  unfold error_lines, stderr_lines.
  induction (List.filter error_entry entries) as [|e l IH]; [done|].
  cbn [fmap list_fmap omap list_omap fst snd]. f_equal. exact IH.
Qed.

Lemma stderr_lines_feed_lines entries :
  stderr_lines (feed_lines entries) = stderr_lines (error_lines entries).
Proof.
  destruct entries as [|e l]; [done|]. unfold feed_lines, stderr_lines.
  rewrite omap_app. cbn. by rewrite app_nil_r.
Qed.

Lemma filter_split_length {A} (f : A → bool) (l : list A) :
  length (List.filter (fun x => negb (f x)) l) + length (List.filter f l)
  = length l.
Proof. induction l as [|x l IH]; simpl; [done|]. destruct (f x); simpl; lia. Qed.

(** X9: on a fetched feed, standard error gets exactly one line per error
    pseudo-entry, naming its title, in the order of the feed; every entry is
    either in the result or on standard error. *)
Theorem fetch_papers_accounts_for_entries w s data root :
  urlopen w build_query_url = Response 200 data →
  fromstring data = Some root →
  ∃ papers s',
    fetch_papers fromstring w s = (Return papers, s')
    ∧ stderr_lines (console s')
      = stderr_lines (console s)
        ++ ((fun e => "API error entry: " +:+ title (parse_entry e))
              <$> List.filter error_entry (findall root (ATOM_NS +:+ "entry")))
    ∧ length papers
      + length (List.filter error_entry (findall root (ATOM_NS +:+ "entry")))
      = length (findall root (ATOM_NS +:+ "entry")).
Proof.
  intros Hurl Hroot. eexists _, _.
  split; [exact (fetch_papers_run fromstring w s data root Hurl Hroot)|].
  cbn [console]. split.
  - unfold stderr_lines at 1. rewrite omap_app. cbn [omap list_omap fst].
    fold (stderr_lines (console s)).
    fold (stderr_lines (feed_lines (findall root (ATOM_NS +:+ "entry")))).
    by rewrite stderr_lines_feed_lines, stderr_lines_error_lines.
  - rewrite length_fmap. apply filter_split_length.
Qed.

(** X10: an entry without a title element is kept, with an empty title. *)
Theorem fetch_papers_keeps_untitled w s data root e :
  urlopen w build_query_url = Response 200 data →
  fromstring data = Some root →
  e ∈ findall root (ATOM_NS +:+ "entry") →
  find e (ATOM_NS +:+ "title") = None →
  ∃ papers s',
    fetch_papers fromstring w s = (Return papers, s')
    ∧ parse_entry e ∈ papers
    ∧ title (parse_entry e) = "".
Proof.
  intros Hurl Hroot He Htitle. eexists _, _.
  split; [exact (fetch_papers_run fromstring w s data root Hurl Hroot)|].
  assert (title (parse_entry e) = "") as Hempty
    by (cbn [title parse_entry]; unfold findtext; by rewrite Htitle).
  split; [|done]. apply list_elem_of_fmap. exists e. split; [done|].
  apply list_elem_of_In, filter_In. split; [by apply list_elem_of_In|].
  unfold error_entry. by rewrite Hempty.
Qed.

(** X11: a body that the XML parser refuses ends the run with an uncaught
    exception after the first line: exit code 1, no file written, nothing
    on standard error from the program itself. *)
Theorem main_malformed_body w s data :
  urlopen w build_query_url = Response 200 data →
  fromstring data = None →
  main fromstring w s
  = (Raise "ParseError",
     mkState (console s ++ [(stdout, "Fetching: " +:+ build_query_url)])
             (files s))
  ∧ exit_code (main fromstring w s).1 = 1%Z.
Proof.
  intros Hurl Hroot.
  assert (fetch_papers fromstring w s
          = (Raise "ParseError",
             mkState (console s ++ [(stdout, "Fetching: " +:+ build_query_url)])
                     (files s))) as Hfetch.
  { rewrite fetch_papers_outcome. unfold fetch_outcome. by rewrite Hurl, Hroot. }
  assert (main fromstring w s = (Raise "ParseError", _)) as Hmain
    by (unfold main; erewrite bind_raise by exact Hfetch; reflexivity).
  split; [exact Hmain|by rewrite Hmain].
Qed.

Lemma filter_none {A} (f : A → bool) (l : list A) :
  Forall (fun x => f x = true) l → List.filter (fun x => negb (f x)) l = [].
Proof. induction 1 as [|x l Hx _ IH]; simpl; [done|]. by rewrite Hx. Qed.

(** X12: a feed whose entries are all error pseudo-entries is not treated
    as a failure: no warning, a count of 0, exit code 0, and both files are
    replaced by a result without papers. *)
Theorem main_all_error_entries w s data root :
  urlopen w build_query_url = Response 200 data →
  fromstring data = Some root →
  findall root (ATOM_NS +:+ "entry") ≠ [] →
  Forall (fun e => ci_startswith (title (parse_entry e)) "error")
         (findall root (ATOM_NS +:+ "entry")) →
  writable w (OUTPUT_JSON w) = true →
  writable w (OUTPUT_JS w) = true →
  ∃ s1 s',
    fetch_papers fromstring w s = (Return [], s1)
    ∧ console s1
      = console s
        ++ (stdout, "Fetching: " +:+ build_query_url)
           :: error_lines (findall root (ATOM_NS +:+ "entry"))
        ++ [(stdout, "Fetched 0 papers.")]
    ∧ main fromstring w s = (Return tt, s')
    ∧ exit_code (main fromstring w s).1 = 0%Z
    ∧ files s' !! OUTPUT_JSON w = Some (empty_feed_json (utc_now w))
    ∧ files s' !! OUTPUT_JS w = Some (script_text (empty_feed_json (utc_now w))).
Proof.
  intros Hurl Hroot Hsome Hall Hjson Hjs.
  pose proof (fetch_papers_run fromstring w s data root Hurl Hroot) as Hfetch.
  assert (List.filter (fun e => negb (error_entry e))
            (findall root (ATOM_NS +:+ "entry")) = []) as Hkept.
  { apply (filter_none error_entry). eapply Forall_impl; [exact Hall|].
    intros e He. by apply startswith_lower_error. }
  unfold feed_lines in Hfetch. rewrite Hkept in Hfetch.
  cbn [fmap list_fmap length] in Hfetch.
  pose proof (main_run fromstring w s [] _ Hfetch Hjson Hjs) as Hmain.
  cbn zeta in Hmain. rewrite empty_feed_json_dumps in Hmain.
  eexists _, _. split_and!; [exact Hfetch| |exact Hmain|by rewrite Hmain| |].
  - cbn [console].
    by destruct (findall root (ATOM_NS +:+ "entry")) as [|e l].
  - cbn [files]. rewrite lookup_insert_ne by apply not_eq_sym, OUTPUT_paths_differ.
    apply lookup_insert_eq.
  - cbn [files]. apply lookup_insert_eq.
Qed.

(** X13: when the JSON file cannot be opened the run ends with the
    uncaught error and exit code 1, and no file is changed; when it is
    opened and the write fails, the JSON file is left with what the failed
    write left and no other file is changed. *)
Theorem main_json_refused w s data root :
  urlopen w build_query_url = Response 200 data →
  fromstring data = Some root →
  writable w (OUTPUT_JSON w) = false →
  (main fromstring w s).1 = Raise "OSError"
  ∧ exit_code (main fromstring w s).1 = 1%Z
  ∧ files (main fromstring w s).2
    = match failed_write w (OUTPUT_JSON w) with
      | None => files s
      | Some rest => <[OUTPUT_JSON w := rest]> (files s)
      end.
Proof.
  intros Hurl Hroot Hjson.
  rewrite main_outcome_result, main_outcome_files.
  unfold main_result, main_files.
  rewrite (fetch_outcome_ok w data root Hurl Hroot). cbn [fst].
  by rewrite Hjson.
Qed.

(** X14: the two writes are not one step: when only the script file cannot
    be opened, the JSON file has already been replaced by the new result
    while the script file keeps what it had; the run ends with exit code 1.
    When the script file is opened and its write fails, it is left with
    what the failed write left, beside the new JSON file. *)
Theorem main_script_refused w s data root :
  urlopen w build_query_url = Response 200 data →
  fromstring data = Some root →
  writable w (OUTPUT_JSON w) = true →
  writable w (OUTPUT_JS w) = false →
  (main fromstring w s).1 = Raise "OSError"
  ∧ exit_code (main fromstring w s).1 = 1%Z
  ∧ files (main fromstring w s).2 !! OUTPUT_JSON w
    = Some (Json.dumps
              (feed_result (utc_now w)
                 (parse_entry <$>
                    List.filter (fun e => negb (error_entry e))
                                (findall root (ATOM_NS +:+ "entry")))))
  ∧ files (main fromstring w s).2 !! OUTPUT_JS w
    = match failed_write w (OUTPUT_JS w) with
      | None => files s !! OUTPUT_JS w
      | Some rest => Some rest
      end.
Proof.
  intros Hurl Hroot Hjson Hjs.
  pose proof (OUTPUT_paths_differ w) as Hpaths.
  rewrite main_outcome_result, main_outcome_files.
  unfold main_result, main_files.
  rewrite (fetch_outcome_ok w data root Hurl Hroot). cbn [fst].
  rewrite Hjson, Hjs.
  destruct (failed_write w (OUTPUT_JS w)) as [rest|].
  - split_and!; [done|done| |apply lookup_insert_eq].
    by rewrite lookup_insert_ne, lookup_insert_eq.
  - split_and!; [done|done|apply lookup_insert_eq|].
    by apply lookup_insert_ne.
Qed.

Lemma main_files_other w (fs : gmap string string) (path : string) :
  path ≠ OUTPUT_JSON w → path ≠ OUTPUT_JS w →
  main_files fromstring w fs !! path = fs !! path.
Proof.
  intros Hjson Hjs. unfold main_files.
  destruct (fetch_outcome fromstring w).1; [|done..].
  destruct (writable w (OUTPUT_JSON w)), (writable w (OUTPUT_JS w)),
           (failed_write w (OUTPUT_JSON w)), (failed_write w (OUTPUT_JS w));
    by rewrite ?lookup_insert_ne by done.
Qed.

(** X15: a run, however it ends, leaves every file other than the two
    outputs as it was. *)
Theorem main_touches_only_outputs w s (path : string) :
  path ≠ OUTPUT_JSON w → path ≠ OUTPUT_JS w →
  files (main fromstring w s).2 !! path = files s !! path.
Proof.
  intros Hjson Hjs. rewrite main_outcome_files. by apply main_files_other.
Qed.


(** X17: running the program again in the same world changes no file:
    the outputs are replaced by what they already hold. *)
Theorem main_rerun w s :
  files (main fromstring w (main fromstring w s).2).2
  = files (main fromstring w s).2.
Proof.
  rewrite !main_outcome_files. unfold main_files.
  pose proof (OUTPUT_paths_differ w) as Hpaths.
  destruct (fetch_outcome fromstring w).1; [|done..].
  destruct (writable w (OUTPUT_JSON w)), (writable w (OUTPUT_JS w)),
           (failed_write w (OUTPUT_JSON w)), (failed_write w (OUTPUT_JS w));
    try done;
    apply map_eq; intros k; rewrite !lookup_insert; by repeat case_decide.
Qed.

(** X18: the outputs are replaced, not merged: a run that ends normally
    ends normally from any other start as well, and the content of the two
    files does not depend on what the files held before. *)
Theorem main_replaces_outputs w s1 s2 :
  (main fromstring w s1).1 = Return tt →
  (main fromstring w s2).1 = Return tt
  ∧ files (main fromstring w s1).2 !! OUTPUT_JSON w
    = files (main fromstring w s2).2 !! OUTPUT_JSON w
  ∧ files (main fromstring w s1).2 !! OUTPUT_JS w
    = files (main fromstring w s2).2 !! OUTPUT_JS w.
Proof.
  rewrite !main_outcome_result, !main_outcome_files.
  unfold main_result, main_files.
  pose proof (OUTPUT_paths_differ w) as Hpaths.
  destruct (fetch_outcome fromstring w).1; [|done..].
  destruct (writable w (OUTPUT_JSON w)); [|done].
  destruct (writable w (OUTPUT_JS w)); [|done]. intros _.
  split_and!; [done| |by rewrite !lookup_insert_eq].
  by rewrite !(lookup_insert_ne _ (OUTPUT_JS w)), !lookup_insert_eq.
Qed.

(** X19: a run on a fetched feed with both files writable writes, as JSON
    text, the time stamp, the query and the records of the entries that
    pass the filter, in order, and reports their number last. *)
Theorem main_writes_feed_result w s data root :
  urlopen w build_query_url = Response 200 data →
  fromstring data = Some root →
  writable w (OUTPUT_JSON w) = true →
  writable w (OUTPUT_JS w) = true →
  let papers :=
    parse_entry <$> List.filter (fun e => negb (error_entry e))
                                (findall root (ATOM_NS +:+ "entry")) in
  ∃ s',
    main fromstring w s = (Return tt, s')
    ∧ files s' !! OUTPUT_JSON w
      = Some (Json.dumps (feed_result (utc_now w) papers))
    ∧ last (console s')
      = Some (stdout, "Wrote " +:+ pretty (length papers) +:+ " papers to "
                      +:+ OUTPUT_JSON w +:+ " and " +:+ OUTPUT_JS w).
Proof.
  intros Hurl Hroot Hjson Hjs papers.
  pose proof (fetch_papers_run fromstring w s data root Hurl Hroot) as Hfetch.
  pose proof (main_run fromstring w s _ _ Hfetch Hjson Hjs) as Hmain.
  cbn zeta in Hmain. eexists. split; [exact Hmain|]. cbn [files console]. split.
  - rewrite lookup_insert_ne by apply not_eq_sym, OUTPUT_paths_differ.
    apply lookup_insert_eq.
  - apply last_snoc.
Qed.

End RunMore.

(** ** The further theorems at the sample data *)

Lemma clean_text_surrounding_ws_witness :
  clean_text (Some (String "009" " " +:+ "preterm  birth" +:+ String Py.LF ""))
  = clean_text (Some "preterm  birth").
Proof.
  apply (clean_text_surrounding_ws (String "009" " ") "preterm  birth"
           (String Py.LF "")); reflexivity.
Defined.

Lemma fetch_papers_accounts_for_entries_witness :
  ∃ papers s',
    fetch_papers (parser_of sample_feed) ok_world sample_state
    = (Return papers, s')
    ∧ stderr_lines (console s')
      = stderr_lines (console sample_state)
        ++ ((fun e => "API error entry: " +:+ title (parse_entry e))
              <$> List.filter error_entry
                    (findall sample_feed (ATOM_NS +:+ "entry")))
    ∧ length papers
      + length (List.filter error_entry
                  (findall sample_feed (ATOM_NS +:+ "entry")))
      = length (findall sample_feed (ATOM_NS +:+ "entry")).
Proof.
  apply (fetch_papers_accounts_for_entries (parser_of sample_feed) ok_world
           sample_state sample_body sample_feed); reflexivity.
Defined.

Lemma fetch_papers_keeps_untitled_witness :
  ∃ papers s',
    fetch_papers (parser_of untitled_feed) ok_world sample_state
    = (Return papers, s')
    ∧ parse_entry bare_entry ∈ papers
    ∧ title (parse_entry bare_entry) = "".
Proof.
  apply (fetch_papers_keeps_untitled (parser_of untitled_feed) ok_world
           sample_state sample_body untitled_feed bare_entry).
  - reflexivity.
  - reflexivity.
  - apply list_elem_of_In. left. reflexivity.
  - reflexivity.
Defined.

Lemma main_malformed_body_witness :
  main (fun _ => None) ok_world sample_state
  = (Raise "ParseError",
     mkState (console sample_state
              ++ [(stdout, "Fetching: " +:+ build_query_url)])
             (files sample_state))
  ∧ exit_code (main (fun _ => None) ok_world sample_state).1 = 1%Z.
Proof.
  apply (main_malformed_body (fun _ => None) ok_world sample_state sample_body);
    reflexivity.
Defined.

Lemma main_all_error_entries_witness :
  ∃ s1 s',
    fetch_papers (parser_of error_feed) ok_world sample_state = (Return [], s1)
    ∧ console s1
      = console sample_state
        ++ (stdout, "Fetching: " +:+ build_query_url)
           :: error_lines (findall error_feed (ATOM_NS +:+ "entry"))
        ++ [(stdout, "Fetched 0 papers.")]
    ∧ main (parser_of error_feed) ok_world sample_state = (Return tt, s')
    ∧ exit_code (main (parser_of error_feed) ok_world sample_state).1 = 0%Z
    ∧ files s' !! OUTPUT_JSON ok_world
      = Some (empty_feed_json (utc_now ok_world))
    ∧ files s' !! OUTPUT_JS ok_world
      = Some (script_text (empty_feed_json (utc_now ok_world))).
Proof.
  apply (main_all_error_entries (parser_of error_feed) ok_world sample_state
           sample_body error_feed).
  - reflexivity.
  - reflexivity.
  - vm_compute. discriminate.
  - repeat constructor; apply startswith_lower_error; reflexivity.
  - reflexivity.
  - reflexivity.
Defined.

Lemma main_json_refused_witness :
  (main (parser_of sample_feed) (world_writing (fun _ => false)) sample_state).1
  = Raise "OSError"
  ∧ exit_code (main (parser_of sample_feed) (world_writing (fun _ => false))
                    sample_state).1 = 1%Z
  ∧ files (main (parser_of sample_feed) (world_writing (fun _ => false))
                sample_state).2
    = files sample_state.
Proof.
  apply (main_json_refused (parser_of sample_feed)
           (world_writing (fun _ => false)) sample_state sample_body sample_feed);
    reflexivity.
Defined.

Lemma main_script_refused_witness :
  let w := world_writing (fun path => bool_decide (path = "/srv/site/papers.json")) in
  (main (parser_of sample_feed) w sample_state).1 = Raise "OSError"
  ∧ exit_code (main (parser_of sample_feed) w sample_state).1 = 1%Z
  ∧ files (main (parser_of sample_feed) w sample_state).2 !! OUTPUT_JSON w
    = Some (Json.dumps
              (feed_result (utc_now w)
                 (parse_entry <$>
                    List.filter (fun e => negb (error_entry e))
                                (findall sample_feed (ATOM_NS +:+ "entry")))))
  ∧ files (main (parser_of sample_feed) w sample_state).2 !! OUTPUT_JS w
    = files sample_state !! OUTPUT_JS w.
Proof.
  apply (main_script_refused (parser_of sample_feed)
           (world_writing (fun path => bool_decide (path = "/srv/site/papers.json")))
           sample_state sample_body sample_feed);
    reflexivity.
Defined.

Lemma main_touches_only_outputs_witness :
  files (main (parser_of sample_feed) ok_world
              (mkState [] {[ "/srv/site/index.html" := "<html/>" ]})).2
    !! "/srv/site/index.html"
  = files (mkState [] {[ "/srv/site/index.html" := "<html/>" ]})
      !! "/srv/site/index.html".
Proof.
  apply (main_touches_only_outputs (parser_of sample_feed) ok_world
           (mkState [] {[ "/srv/site/index.html" := "<html/>" ]})
           "/srv/site/index.html").
  - vm_compute. discriminate.
  - vm_compute. discriminate.
Defined.

Lemma main_replaces_outputs_witness :
  (main (parser_of sample_feed) ok_world (mkState [] ∅)).1 = Return tt
  ∧ files (main (parser_of sample_feed) ok_world sample_state).2
      !! OUTPUT_JSON ok_world
    = files (main (parser_of sample_feed) ok_world (mkState [] ∅)).2
        !! OUTPUT_JSON ok_world
  ∧ files (main (parser_of sample_feed) ok_world sample_state).2
      !! OUTPUT_JS ok_world
    = files (main (parser_of sample_feed) ok_world (mkState [] ∅)).2
        !! OUTPUT_JS ok_world.
Proof.
  apply (main_replaces_outputs (parser_of sample_feed) ok_world sample_state
           (mkState [] ∅)).
  vm_compute. reflexivity.
Defined.

Lemma main_writes_feed_result_witness :
  let papers :=
    parse_entry <$> List.filter (fun e => negb (error_entry e))
                                (findall sample_feed (ATOM_NS +:+ "entry")) in
  ∃ s',
    main (parser_of sample_feed) ok_world sample_state = (Return tt, s')
    ∧ files s' !! OUTPUT_JSON ok_world
      = Some (Json.dumps (feed_result (utc_now ok_world) papers))
    ∧ last (console s')
      = Some (stdout, "Wrote " +:+ pretty (length papers) +:+ " papers to "
                      +:+ OUTPUT_JSON ok_world +:+ " and " +:+ OUTPUT_JS ok_world).
Proof.
  apply (main_writes_feed_result (parser_of sample_feed) ok_world sample_state
           sample_body sample_feed); reflexivity.
Defined.

(** What the last run writes and prints. *)
Example main_sample_last_line :
  last (console (main (parser_of sample_feed) ok_world sample_state).2)
  = Some (stdout,
          "Wrote 2 papers to /srv/site/papers.json and /srv/site/papers.js").
Proof. vm_compute. reflexivity. Qed.

(** ** The filter sees the cleaned title *)

Section FilterOnCleanTitle.

Implicit Types (s t h r a : string) (c : ascii).

Lemma isspace_lower_char c : Py.isspace (Py.lower_char c) = Py.isspace c.
Proof. by destruct c as [[] [] [] [] [] [] [] []]. Qed.

Lemma no_ws_lower h : no_ws (Py.lower h) = no_ws h.
Proof.
  induction h as [|c h IH]; [done|]. simpl.
  by rewrite isspace_lower_char, IH.
Qed.

Lemma sub_ws_no_ws (in_run : bool) h r :
  no_ws h = true → h ≠ "" →
  Py.sub_ws_from in_run (h +:+ r) = h +:+ Py.sub_ws_from false r.
Proof.
  revert in_run; induction h as [|c h IH]; intros in_run Hh Hne; [done|].
  simpl in Hh. apply andb_prop in Hh as [Hc%negb_true_iff Hh].
  rewrite !app_cons. simpl. rewrite Hc. f_equal.
  destruct h as [|d h]; [done|]. by apply IH.
Qed.

Lemma rstrip_no_ws h r : no_ws h = true → Py.rstrip (h +:+ r) = h +:+ Py.rstrip r.
Proof.
  induction h as [|c h IH]; [done|]. intros Hch.
  simpl in Hch. apply andb_prop in Hch as [Hc%negb_true_iff Hh].
  rewrite !app_cons, rstrip_cons, (IH Hh), Hc.
  by destruct (h +:+ Py.rstrip r).
Qed.

(** A text that begins with a word keeps that beginning when cleaned. *)
Lemma clean_text_head h r :
  no_ws h = true → h ≠ "" →
  ∃ r', clean_text (Some (h +:+ r)) = h +:+ r'.
Proof.
  intros Hh Hne. unfold clean_text, Py.strip, Py.sub_ws.
  rewrite (sub_ws_no_ws _ _ _ Hh Hne).
  rewrite lstrip_id.
  - rewrite (rstrip_no_ws _ _ Hh). eauto.
  - destruct h as [|c h]; [done|]. simpl in *.
    by apply andb_prop in Hh as [Hc%negb_true_iff _].
Qed.

(** X20: the filter tests the cleaned title, so an error pseudo-entry is
    recognised also when white space precedes its title in the element. *)
Theorem error_entry_despite_leading_ws (entry : Element) (a t : string) :
  findtext entry (ATOM_NS +:+ "title") None = Some (a +:+ t) →
  all_ws a = true →
  ci_startswith t "error" →
  error_entry entry = true.
Proof.
  intros Htitle Ha (h & r & -> & Hh).
  unfold error_entry. cbn [title parse_entry]. rewrite Htitle.
  rewrite clean_text_words, words_ws_l, <- clean_text_words by done.
  assert (no_ws h = true) as Hnows by (by rewrite <- no_ws_lower, Hh).
  assert (h ≠ "") as Hne by (by intros ->).
  destruct (clean_text_head h r Hnows Hne) as [r' ->].
  apply startswith_lower_error. by exists h, r'.
Qed.

End FilterOnCleanTitle.

Lemma error_entry_despite_leading_ws_witness :
  error_entry wrapped_error_entry = true.
Proof.
  apply (error_entry_despite_leading_ws wrapped_error_entry
           (String Py.LF "    ")
           ("Error: incorrect id format" +:+ String Py.LF "  ")).
  - reflexivity.
  - reflexivity.
  - apply startswith_lower_error. reflexivity.
Defined.

(** ** The script file at the sample data *)

Lemma main_script_embeds_json_witness :
  ∃ json_str s',
    main (parser_of sample_feed) ok_world sample_state = (Return tt, s')
    ∧ json_str
      = Json.dumps
          (feed_result (utc_now ok_world)
             (parse_entry <$>
                List.filter (fun e => negb (error_entry e))
                            (findall sample_feed (ATOM_NS +:+ "entry"))))
    ∧ files s' !! OUTPUT_JSON ok_world = Some json_str
    ∧ files s' !! OUTPUT_JS ok_world
      = Some ("const PAPERS_DATA = " +:+ json_str +:+ ";" +:+ String Py.LF "").
Proof.
  apply (proj1 (main_script_embeds_json (parser_of sample_feed) ok_world
                  sample_state) sample_body sample_feed); reflexivity.
Defined.

(** The script file opened and its write failing: exit code 1, the new JSON
    file beside an emptied script file. *)
Example main_script_write_fails_after_open :
  let w := world_emptying (fun path => bool_decide (path = "/srv/site/papers.json")) in
  let '(r, s') := main (parser_of empty_feed) w sample_state in
  (exit_code r, files s' !! OUTPUT_JSON w, files s' !! OUTPUT_JS w)
  = (1%Z, Some (empty_feed_json (utc_now w)), Some "").
Proof. vm_compute. reflexivity. Qed.
